(** * local-test-server.py: the DSP extension test server

    A shallow embedding of [local-test-server.py] and of the parts of the
    Python runtime it drives ([int], [%], [print], [pathlib], [webbrowser],
    the serve loop of [socketserver], and the request line, the header
    buffer and the writes of [http.server]), with the properties of the
    script proved over it.

    Text is modelled as byte strings: a Python [str] is the list of the
    bytes of its UTF-8 encoding, so the pictographs of the messages are
    three or four characters long here; a request line is the bytes the
    client sent, which the library reads as ISO-8859-1. *)

From Stdlib Require Import String Ascii ZArith List Lia Bool DecimalString.
From Stdlib Require DecimalFacts DecimalPos DecimalZ.
Import ListNotations.

Local Open Scope string_scope.
Local Open Scope Z_scope.

(** ** Fragments of the Python runtime *)

Module Py.

(** Carriage return, line feed and the double quote, which a string
    literal cannot hold. *)
Definition cr : ascii := ascii_of_nat 13.
Definition lf : ascii := ascii_of_nat 10.
Definition crlf : string := String cr (String lf "").
Definition dq : string := String (ascii_of_nat 34) "".

(** [str(n)] for an [int]. *)
Definition str_of_int (n : Z) : string := NilZero.string_of_int (Z.to_int n).

(** [needle in hay] for two strings. *)
Fixpoint contains (needle hay : string) : bool :=
  if String.prefix needle hay then true
  else match hay with
       | "" => false
       | String _ rest => contains needle rest
       end.

(** The exceptions the script can meet.  [OSError] carries [errno] and
    [strerror]; [OtherError] stands for any further subclass of
    [Exception], [webbrowser.Error] for one. *)
Inductive exn : Type :=
| OSError (errno : Z) (strerror : string)
| KeyboardInterrupt
| SystemExit (code : Z)
| ValueError
| OverflowError
| AttributeError
| TypeError
| OtherError (name : string).

(** [isinstance(e, Exception)]: everything but the two that derive from
    [BaseException] directly. *)
Definition is_Exception (e : exn) : bool :=
  match e with
  | KeyboardInterrupt | SystemExit _ => false
  | _ => true
  end.

Definition is_OSError (e : exn) : bool :=
  match e with
  | OSError _ _ => true
  | _ => false
  end.

(** [str(e)] of an [OSError] built from [errno] and [strerror]. *)
Definition str_OSError (errno : Z) (strerror : string) : string :=
  "[Errno " ++ str_of_int errno ++ "] " ++ strerror.

(** *** Text and bytes

    A [str] is held as the bytes of its UTF-8 encoding; what follows
    reads these bytes back as code points, the way Python decodes them
    (no overlong form, no surrogate, nothing above U+10FFFF). *)
Definition byte (c : ascii) : Z := Z.of_nat (nat_of_ascii c).

Definition continuation (c : ascii) : option Z :=
  let b := byte c in
  if (128 <=? b) && (b <=? 191) then Some (b - 128) else None.

Fixpoint utf8_decode (s : string) : option (list Z) :=
  match s with
  | "" => Some []
  | String c0 r0 =>
      let b0 := byte c0 in
      if b0 <? 128 then option_map (cons b0) (utf8_decode r0)
      else if b0 <? 194 then None
      else if b0 <? 224 then
        match r0 with
        | String c1 r1 =>
            match continuation c1 with
            | Some x1 =>
                option_map (cons ((b0 - 192) * 64 + x1)) (utf8_decode r1)
            | None => None
            end
        | "" => None
        end
      else if b0 <? 240 then
        match r0 with
        | String c1 (String c2 r2) =>
            match continuation c1, continuation c2 with
            | Some x1, Some x2 =>
                let cp := (b0 - 224) * 4096 + x1 * 64 + x2 in
                if (cp <? 2048) || ((55296 <=? cp) && (cp <=? 57343)) then None
                else option_map (cons cp) (utf8_decode r2)
            | _, _ => None
            end
        | _ => None
        end
      else if b0 <? 245 then
        match r0 with
        | String c1 (String c2 (String c3 r3)) =>
            match continuation c1, continuation c2, continuation c3 with
            | Some x1, Some x2, Some x3 =>
                let cp := (b0 - 240) * 262144 + x1 * 4096 + x2 * 64 + x3 in
                if (cp <? 65536) || (1114111 <? cp) then None
                else option_map (cons cp) (utf8_decode r3)
            | _, _, _ => None
            end
        | _ => None
        end
      else None
  end.

Fixpoint is_ascii (s : string) : bool :=
  match s with
  | "" => true
  | String c r => (byte c <? 128) && is_ascii r
  end.

(** A byte string read as ISO-8859-1, one character for each byte, which
    is how [http.server] reads a request line. *)
Fixpoint latin1 (s : string) : string :=
  match s with
  | "" => ""
  | String c r =>
      let b := byte c in
      if b <? 128 then String c (latin1 r)
      else String (ascii_of_nat (Z.to_nat (192 + b / 64)))
             (String (ascii_of_nat (Z.to_nat (128 + b mod 64))) (latin1 r))
  end.

(** *** [int(s)] in base ten

    [int] on a [str] is CPython's [PyLong_FromUnicodeObject].  A string
    that is not pure ASCII is first rewritten: a character below 127
    stays, a blank of Unicode becomes a space, a decimal digit of Unicode
    becomes the ASCII digit of its value, anything else a question mark.
    The result is read by [PyLong_FromString]: blanks, an optional sign,
    digits with single underscores between them, blanks, and no more
    digits than [max_str_digits].  The digits are those of Unicode 14,
    which is what Python 3.11 knows: 66 runs of ten, each from zero to
    nine; [decimal_zeros] lists the zero of each run. *)
Definition decimal_zeros : list Z :=
  [48; 1632; 1776; 1984; 2406; 2534; 2662; 2790; 2918; 3046; 3174; 3302;
   3430; 3558; 3664; 3792; 3872; 4160; 4240; 6112; 6160; 6470; 6608; 6784;
   6800; 6992; 7088; 7232; 7248; 42528; 43216; 43264; 43472; 43504; 43600;
   44016; 65296; 66720; 68912; 69734; 69872; 69942; 70096; 70384; 70736;
   70864; 71248; 71360; 71472; 71904; 72016; 72784; 73040; 73120; 92768;
   92864; 93008; 120782; 120792; 120802; 120812; 120822; 123200; 123632;
   125264; 130032].

Definition unicode_decimal (cp : Z) : option Z :=
  match find (fun z => (z <=? cp) && (cp <=? z + 9)) decimal_zeros with
  | Some z => Some (cp - z)
  | None => None
  end.

(** The blanks of Unicode above ASCII. *)
Definition unicode_space (cp : Z) : bool :=
  existsb (Z.eqb cp)
    [133; 160; 5760; 8192; 8193; 8194; 8195; 8196; 8197; 8198; 8199; 8200;
     8201; 8202; 8232; 8233; 8239; 8287; 12288].

Definition to_ascii (cp : Z) : ascii :=
  if cp <? 127 then ascii_of_nat (Z.to_nat cp)
  else if unicode_space cp then " "%char
  else match unicode_decimal cp with
       | Some d => ascii_of_nat (Z.to_nat (48 + d))
       | None => "?"%char
       end.

Definition transform (cps : list Z) : string :=
  string_of_list_ascii (map to_ascii cps).

Definition is_space (c : ascii) : bool :=
  let n := nat_of_ascii c in
  (((9 <=? n) && (n <=? 13)) || (n =? 32))%nat.

Definition digit_val (c : ascii) : option Z :=
  let n := nat_of_ascii c in
  if ((48 <=? n) && (n <=? 57))%nat then Some (Z.of_nat (n - 48)) else None.

Fixpoint all_space (s : string) : bool :=
  match s with
  | "" => true
  | String c r => is_space c && all_space r
  end.

Fixpoint lstrip (s : string) : string :=
  match s with
  | "" => ""
  | String c r => if is_space c then lstrip r else s
  end.

(** [sys.get_int_max_str_digits()], which the script leaves at its
    default. *)
Definition max_str_digits : nat := 4300.

(** What follows the first digit: [acc] is the value read so far and
    [digits] the number of digits read. *)
Fixpoint int_tail (s : string) (acc : Z) (digits : nat) : option Z :=
  match s with
  | "" => if (max_str_digits <? digits)%nat then None else Some acc
  | String c r =>
      match digit_val c with
      | Some d => int_tail r (10 * acc + d) (S digits)
      | None =>
          if Ascii.eqb c "_" then
            match r with
            | String c' r' =>
                match digit_val c' with
                | Some d => int_tail r' (10 * acc + d) (S digits)
                | None => None
                end
            | "" => None
            end
          else if is_space c then
            (if all_space r && negb (max_str_digits <? digits)%nat
             then Some acc else None)
          else None
      end
  end.

Definition int_unsigned (s : string) : option Z :=
  match s with
  | String c r =>
      match digit_val c with
      | Some d => int_tail r d 1
      | None => None
      end
  | "" => None
  end.

(** [PyLong_FromString] in base ten: [None] is [ValueError]. *)
Definition int_ascii (s : string) : option Z :=
  match lstrip s with
  | String c r =>
      if Ascii.eqb c "-" then option_map Z.opp (int_unsigned r)
      else if Ascii.eqb c "+" then int_unsigned r
      else int_unsigned (String c r)
  | "" => None
  end.

(** [int(s)]: [None] is [ValueError].  A string that does not decode, as
    an argument of the command line given in bytes that are not UTF-8,
    holds a surrogate and is refused. *)
Definition int (s : string) : option Z :=
  if is_ascii s then int_ascii s
  else match utf8_decode s with
       | Some cps => int_ascii (transform cps)
       | None => None
       end.

(** *** [format % args]

    The conversions [%s], [%d] and [%%], without flags, which are the ones
    the logging calls of [http.server] use.  [None] is the [TypeError] or
    [ValueError] of a format that does not fit its arguments; a conversion
    outside these three is not modelled and gives [None] too. *)
Inductive value : Type :=
| VStr (s : string)
| VInt (n : Z).

Definition str (v : value) : string :=
  match v with
  | VStr s => s
  | VInt n => str_of_int n
  end.

Fixpoint percent (format : string) (args : list value) : option string :=
  match format with
  | "" => match args with
          | [] => Some ""
          | _ :: _ => None
          end
  | String c r =>
      if Ascii.eqb c "%" then
        match r with
        | "" => None
        | String k r' =>
            if Ascii.eqb k "%" then option_map (String "%") (percent r' args)
            else if Ascii.eqb k "s" then
              match args with
              | a :: args' => option_map (append (str a)) (percent r' args')
              | [] => None
              end
            else if Ascii.eqb k "d" then
              match args with
              | VInt n :: args' =>
                  option_map (append (str_of_int n)) (percent r' args')
              | _ => None
              end
            else None
        end
      else option_map (String c) (percent r args)
  end.

End Py.

Import Py.

(** ** The process and its environment *)

(** *** Request lines

    [http.server] reads the first line of a connection with
    [rfile.readline(65537)], decodes it as ISO-8859-1, strips the line end
    and splits it at blanks.  The functions here work on the bytes of the
    line, one byte being one character. *)

(** [c.isspace()] for a character of ISO-8859-1: the blanks at which
    [str.split()] splits. *)
Definition latin1_space (c : ascii) : bool :=
  let b := byte c in
  ((9 <=? b) && (b <=? 13)) || ((28 <=? b) && (b <=? 32))
  || (b =? 133) || (b =? 160).

(** [s.split()]: [pending] is the word being read, [None] between words. *)
Fixpoint split_from (s : string) (pending : option string) : list string :=
  match s with
  | "" => match pending with
          | Some w => [w]
          | None => []
          end
  | String c r =>
      if latin1_space c then
        match pending with
        | Some w => w :: split_from r None
        | None => split_from r None
        end
      else
        split_from r (Some (match pending with
                            | Some w => w ++ String c ""
                            | None => String c ""
                            end))
  end.

Definition split (s : string) : list string := split_from s None.

(** [s.split(sep)] for a separator of one character. *)
Fixpoint split_at (sep : ascii) (s : string) : list string :=
  match s with
  | "" => [""]
  | String c r =>
      if Ascii.eqb c sep then "" :: split_at sep r
      else match split_at sep r with
           | w :: ws => String c w :: ws
           | [] => [String c ""]
           end
  end.

(** [s.rstrip('\r\n')] *)
Fixpoint rstrip_crlf (s : string) : string :=
  match s with
  | "" => ""
  | String c r =>
      match rstrip_crlf r with
      | "" => if Ascii.eqb c cr || Ascii.eqb c lf then "" else String c ""
      | r' => String c r'
      end
  end.

(** [s.lstrip('/')] *)
Fixpoint lstrip_slash (s : string) : string :=
  match s with
  | String c r => if Ascii.eqb c "/" then lstrip_slash r else s
  | "" => ""
  end.

(** A request line gets an answer when it holds a word; the empty line
    stands for a line of more than 65536 bytes, which
    [handle_one_request] answers after it has emptied [requestline]. *)
Definition answered (line : string) : bool :=
  match line with
  | "" => true
  | _ => match split line with
         | [] => false
         | _ :: _ => true
         end
  end.

(** A request that gets an answer: its request line, as bytes and without
    its line end, and the error that a write to its client raises when the
    client has gone. *)
Record request : Type := mkRequest {
  rq_line : string;
  rq_lost : option (Z * string);
  rq_answered : answered rq_line = true
}.

(** [self.requestline], the text that is logged. *)
Definition rq_requestline (rq : request) : string := latin1 (rq_line rq).

Definition request_of (line : string) (lost : option (Z * string))
  : option request :=
  match answered line as b return answered line = b -> option request with
  | true => fun H => Some (mkRequest line lost H)
  | false => fun _ => None
  end eq_refl.

(** What a client does on its connection: it sends a first line, [raw]
    being what [readline(65537)] returns, or it never completes one, and
    the handler waits in [readline] until [wake] is raised there, if
    ever. *)
Inductive connection : Type :=
| Sends (raw : string) (lost : option (Z * string))
| Stalls (wake : option exn).

(** The first steps of [handle_one_request] and [parse_request]: a line
    too long is answered with its request line emptied, an empty read and
    a line without a word are dropped without an answer. *)
Definition classify (raw : string) (lost : option (Z * string))
  : option request :=
  if 65536 <? Z.of_nat (String.length raw) then request_of "" lost
  else match rstrip_crlf raw with
       | "" => None
       | line => request_of line lost
       end.

(** [parse_request] on the words of the line.  [version_number] is the
    pair of integers of a version word, [None] where the library raises
    [ValueError]. *)
Definition version_number (version : string) : option (Z * Z) :=
  if String.prefix "HTTP/" version then
    match split_at "." (substring 5 (String.length version - 5) version) with
    | [major; minor] =>
        match int (latin1 major), int (latin1 minor) with
        | Some x, Some y => Some (x, y)
        | _, _ => None
        end
    | _ => None
    end
  else None.

(** How [parse_request] leaves the handler: [Refused] when it has sent an
    error itself, with [request_version] as it stood then; [Parsed] with
    command, path and version otherwise. *)
Inductive parse : Type :=
| Refused (version : string)
| Parsed (command path version : string).

Definition default_request_version : string := "HTTP/0.9".

Definition parse_request (line : string) : parse :=
  let words := split line in
  let n := List.length words in
  match
    (if (3 <=? n)%nat then
       match version_number (last words "") with
       | None => inl (Refused default_request_version)
       | Some (major, minor) =>
           if (2 <? major) || ((major =? 2) && (0 <=? minor))
           then inl (Refused default_request_version)
           else inr (latin1 (last words ""))
       end
     else inr default_request_version)
  with
  | inl refused => refused
  | inr version =>
      if negb ((2 <=? n) && (n <=? 3))%nat then Refused version
      else
        let command := nth 0 words "" in
        let path := nth 1 words "" in
        if (n =? 2)%nat && negb (String.eqb command "GET")
        then Refused version
        else Parsed (latin1 command)
               (latin1 (if String.prefix "//" path
                        then String "/" (lstrip_slash path) else path))
               version
  end.

(** What an observer of a request line learns from the handler:
    [request_version] when the answer is sent, and whether the answer is an
    error of the library's own: the line was too long, [parse_request]
    refused it, or no method [do_<command>] exists, [do_GET] and [do_HEAD]
    being the two of [SimpleHTTPRequestHandler]. *)
Definition rq_version (rq : request) : string :=
  match rq_line rq with
  | "" => ""
  | line => match parse_request line with
            | Refused version => version
            | Parsed _ _ version => version
            end
  end.

Definition rq_command (rq : request) : option string :=
  match rq_line rq with
  | "" => Some ""
  | line => match parse_request line with
            | Refused _ => None
            | Parsed command _ _ => Some command
            end
  end.

Definition rq_path (rq : request) : string :=
  match rq_line rq with
  | "" => ""
  | line => match parse_request line with
            | Refused _ => ""
            | Parsed _ path _ => path
            end
  end.

Definition rq_refused (rq : request) : bool :=
  match rq_command rq with
  | Some command => negb (String.eqb command "GET" || String.eqb command "HEAD")
  | None => true
  end.

(** *** The surroundings *)

(** What the static-file logic of [SimpleHTTPRequestHandler] ([send_head],
    [list_directory], [send_error]) answers to a request: the status line,
    the fields it hands to [send_header] and the body; [error] tells the
    replies of [send_error], which logs the error first, from the others. *)
Record reply : Type := mkReply {
  error : bool;
  status : Z;
  reason : string;
  fields : list (string * string);
  body : string
}.

(** Everything the script asks of its surroundings. *)
Record world : Type := mkWorld {
  (** [Path(name).exists()] with the process in directory [dir] *)
  fs_exists : string -> string -> bool;
  (** binding a port in range: [None] when the socket is bound and listens,
      [Some (errno, strerror)] when the system refuses *)
  os_bind : Z -> option (Z * string);
  (** the port the system binds when port 0 is asked for *)
  ephemeral : Z;
  (** [webbrowser.open(url)]: the exception it raises, if any *)
  browser : string -> option exn;
  (** the connections that reach the server while it serves, in the order
      in which it accepts them *)
  arriving : list connection;
  (** what ends the wait of [serve_forever] for a connection once these
      are through, Ctrl+C being [Some KeyboardInterrupt]; [None] when
      nothing ever does *)
  select_wake : option exn;
  (** the answer of the static-file logic serving directory [dir] *)
  static_reply : string -> request -> reply;
  version_string : string;
  date_time_string : string
}.

(** The port a socket asked to bind [port] is bound to. *)
Definition bound_port (W : world) (port : Z) : Z :=
  if port =? 0 then ephemeral W else port.

(** What an observer of the process sees, in order: the lines on standard
    output, the calls [TCPServer(("", port), ...)], [webbrowser.open(url)],
    [serve_forever()] and [server_close()], what a client that is still
    there has received for its request, and the errors that
    [handle_error] reports. *)
Inductive event : Type :=
| Print (line : string)
| Socket (port : Z)
| Browser (url : string)
| ServeForever
| Response (rq : request) (root : string) (bytes : string)
| HandlerError (e : exn)
| Close.

(** The state of the process: its current directory and the port its
    listening socket is bound to. *)
Record process : Type := mkProcess {
  cwd : string;
  listening : option Z
}.

Definition boot (dir : string) : process :=
  {| cwd := dir; listening := None |}.

(** *** Statements that print, raise or never return *)

Inductive result (A : Type) : Type :=
| Ret (a : A)
| Raise (e : exn)
| Blocked.

Arguments Ret {A} a.
Arguments Raise {A} e.
Arguments Blocked {A}.

Definition M (A : Type) : Type := process -> result A * process * list event.

Definition ret {A : Type} (a : A) : M A := fun p => (Ret a, p, []).

Definition bind {A B : Type} (c : M A) (k : A -> M B) : M B :=
  fun p =>
    match c p with
    | (Ret a, p1, t1) =>
        match k a p1 with
        | (r, p2, t2) => (r, p2, (t1 ++ t2)%list)
        end
    | (Raise e, p1, t1) => (Raise e, p1, t1)
    | (Blocked, p1, t1) => (Blocked, p1, t1)
    end.

Definition raise {A : Type} (e : exn) : M A := fun p => (Raise e, p, []).

Declare Scope py_scope.
Delimit Scope py_scope with py.
Notation "x <- c ;; k" := (bind c (fun x => k))
  (at level 61, c at next level, right associativity) : py_scope.
Notation "c ;; k" := (bind c (fun _ => k))
  (at level 61, right associativity) : py_scope.
Local Open Scope py_scope.

(** [try: body  except ...: ...]: [clauses e] is the suite of the first
    clause that matches [e], [None] when no clause does. *)
Definition try_except {A : Type} (body : M A) (clauses : exn -> option (M A))
  : M A :=
  fun p =>
    match body p with
    | (Raise e, p1, t1) =>
        match clauses e with
        | Some suite =>
            match suite p1 with
            | (r, p2, t2) => (r, p2, (t1 ++ t2)%list)
            end
        | None => (Raise e, p1, t1)
        end
    | other => other
    end.

Definition print (line : string) : M unit := fun p => (Ret tt, p, [Print line]).

(** [sys.exit(code)] *)
Definition sys_exit {A : Type} (code : Z) : M A := raise (SystemExit code).

(** [os.getcwd()] *)
Definition getcwd : M string := fun p => (Ret (cwd p), p, []).

(** How the interpreter ends. *)
Inductive exit : Type :=
| Exit (code : Z)
| Traceback (e : exn)
| Running.

Definition interpreter (r : result unit) : exit :=
  match r with
  | Ret _ => Exit 0
  | Raise (SystemExit code) => Exit code
  | Raise e => Traceback e
  | Blocked => Running
  end.

(** Projections of a trace. *)
Definition printed (t : list event) : list string :=
  flat_map (fun e => match e with Print l => [l] | _ => [] end) t.

Definition sockets (t : list event) : list Z :=
  flat_map (fun e => match e with Socket n => [n] | _ => [] end) t.

Definition responses (t : list event) : list (request * string * string) :=
  flat_map (fun e => match e with
                     | Response rq root bytes => [(rq, root, bytes)]
                     | _ => []
                     end) t.

Definition serves (t : list event) : bool :=
  existsb (fun e => match e with ServeForever => true | _ => false end) t.

(** ** The libraries the script calls *)

(** *** [http.server]: the header buffer of [BaseHTTPRequestHandler]

    [_headers_buffer] is an attribute that [send_response_only] and
    [send_header] create on first use: [None] is the handler without it.
    [wfile] holds the bytes written to the client, [lost] the error that
    [wfile.write], which is [sendall] on the socket, raises when the
    client has gone. *)
Record handler : Type := mkHandler {
  directory : string;
  requestline : string;
  command : option string;
  path : string;
  request_version : string;
  _headers_buffer : option (list string);
  wfile : string;
  lost : option (Z * string)
}.

Definition protocol_version : string := "HTTP/1.0".

Definition set_buffer (h : handler) (b : option (list string)) : handler :=
  {| directory := directory h; requestline := requestline h;
     command := command h; path := path h;
     request_version := request_version h;
     _headers_buffer := b; wfile := wfile h; lost := lost h |}.

(** The handler after a write that its client took. *)
Definition written (h : handler) (bytes : string) : handler :=
  {| directory := directory h; requestline := requestline h;
     command := command h; path := path h;
     request_version := request_version h;
     _headers_buffer := _headers_buffer h;
     wfile := wfile h ++ bytes; lost := lost h |}.

(** [self.wfile.write(bytes)] *)
Definition write (h : handler) (bytes : string) : M handler :=
  match lost h with
  | Some (errno, strerror) => raise (OSError errno strerror)
  | None => ret (written h bytes)
  end.

Definition buffer_append (h : handler) (line : string) : handler :=
  set_buffer h (Some (match _headers_buffer h with
                      | Some b => (b ++ [line])%list
                      | None => [line]
                      end)).

Definition is_http09 (h : handler) : bool :=
  String.eqb (request_version h) "HTTP/0.9".

Definition send_response_only (h : handler) (code : Z) (message : string)
  : handler :=
  if is_http09 h then h
  else buffer_append h
         (protocol_version ++ " " ++ str_of_int code ++ " " ++ message ++ crlf).

Definition send_header (h : handler) (keyword value : string) : handler :=
  if is_http09 h then h
  else buffer_append h (keyword ++ ": " ++ value ++ crlf).

Definition flush_headers (h : handler) : M handler :=
  match _headers_buffer h with
  | Some b =>
      h <- write h (String.concat "" b) ;;
      ret (set_buffer h (Some []))
  | None => ret h
  end.

(** [BaseHTTPRequestHandler.end_headers]; appending to a buffer that was
    never created is an [AttributeError]. *)
Definition base_end_headers (h : handler) : M handler :=
  if is_http09 h then ret h
  else match _headers_buffer h with
       | Some b => flush_headers (set_buffer h (Some (b ++ [crlf])%list))
       | None => raise AttributeError
       end.

(** The methods a handler class may override, reached through [self]. *)
Class HandlerClass : Type := {
  self_end_headers : handler -> M handler;
  self_log_message : handler -> string -> list value -> M unit
}.

Section Libraries.

Variable W : world.

Section RequestHandler.

Context {cls : HandlerClass}.

(** [log_request(code)], called by [send_response]; the size is ['-']. *)
Definition log_request (h : handler) (code : Z) : M unit :=
  self_log_message h (dq ++ "%s" ++ dq ++ " %s %s")
    [VStr (requestline h); VStr (str_of_int code); VStr "-"].

Definition log_error (h : handler) (format : string) (args : list value)
  : M unit :=
  self_log_message h format args.

Definition send_response (h : handler) (code : Z) (message : string)
  : M handler :=
  log_request h code ;;
  let h := send_response_only h code message in
  let h := send_header h "Server" (version_string W) in
  ret (send_header h "Date" (date_time_string W)).

Definition send_fields (h : handler) (l : list (string * string)) : handler :=
  fold_left (fun h kv => send_header h (fst kv) (snd kv)) l h.

(** One response, the way [send_head], [list_directory] and [send_error]
    all produce theirs: [send_response], the fields, [self.end_headers()],
    then the body on [wfile], when there is one; [send_error] calls
    [log_error] before. *)
Definition respond (h : handler) (r : reply) (refused : bool) : M handler :=
  (if refused || error r
   then log_error h "code %d, message %s" [VInt (status r); VStr (reason r)]
   else ret tt) ;;
  h <- send_response h (status r) (reason r) ;;
  h <- self_end_headers (send_fields h (fields r)) ;;
  if String.eqb (body r) "" then ret h else write h (body r).

(** [SimpleHTTPRequestHandler.__init__(request, ..., directory=dir)]: it
    records [dir], and [BaseRequestHandler.__init__] then handles the
    request before the constructor returns: [handle_one_request] and
    [parse_request] set [requestline], [command], [path] and
    [request_version] from the request line, and the answer is an error of
    the library's own or what the static-file logic gives.  A client that
    is still there has then received what was written. *)
Definition SimpleHTTPRequestHandler_init (dir : string) (rq : request)
  : M unit :=
  let h := {| directory := dir; requestline := rq_requestline rq;
              command := rq_command rq; path := rq_path rq;
              request_version := rq_version rq;
              _headers_buffer := None; wfile := ""; lost := rq_lost rq |} in
  h <- respond h (static_reply W (directory h) rq) (rq_refused rq) ;;
  fun p => (Ret tt, p, match lost h with
                       | None => [Response rq (directory h) (wfile h)]
                       | Some _ => []
                       end).

End RequestHandler.

(** *** [pathlib] and [webbrowser] *)

(** [Path(name).exists()], a relative path being resolved against the
    current directory. *)
Definition Path_exists (name : string) : M bool :=
  fun p => (Ret (fs_exists W (cwd p) name), p, []).

Definition webbrowser_open (url : string) : M unit :=
  fun p => (match browser W url with
            | Some e => Raise e
            | None => Ret tt
            end, p, [Browser url]).

(** *** [socketserver] *)

(** [TCPServer(("", port), ...)]: [socket.bind] refuses a port outside
    0..65535 with [OverflowError] before the system is asked; when the
    bind fails either way the constructor calls [server_close()] and
    raises again. *)
Definition TCPServer (port : Z) : M unit :=
  fun p =>
    if (port <? 0) || (65535 <? port)
    then (Raise OverflowError, p, [Socket port; Close])
    else match os_bind W port with
         | Some (errno, strerror) =>
             (Raise (OSError errno strerror), p, [Socket port; Close])
         | None =>
             (Ret tt, {| cwd := cwd p; listening := Some (bound_port W port) |},
              [Socket port])
         end.

Definition server_close : M unit :=
  fun p => (Ret tt, {| cwd := cwd p; listening := None |}, [Close]).

(** [with server as httpd: suite]: [__exit__] closes the server however
    the suite ends, unless it never ends. *)
Definition with_server {A : Type} (server : M unit) (suite : M A) : M A :=
  server ;;
  fun p =>
    match suite p with
    | (Blocked, p1, t1) => (Blocked, p1, t1)
    | (r, p1, t1) =>
        match server_close p1 with
        | (_, p2, t2) => (r, p2, (t1 ++ t2)%list)
        end
    end.

(** [finish_request]: the handler class is instantiated on the
    connection.  A handler whose client does not complete its first line
    waits in [readline]; one that reads an empty line, or the end of the
    stream, returns without an answer. *)
Definition finish_request (RequestHandlerClass : request -> M unit)
  (c : connection) : M unit :=
  match c with
  | Stalls wake =>
      fun p => (match wake with
                | Some e => Raise e
                | None => Blocked
                end, p, [])
  | Sends raw gone =>
      match classify raw gone with
      | Some rq => RequestHandlerClass rq
      | None => ret tt
      end
  end.

(** [_handle_request_noblock]: an [Exception] out of the handler is
    reported by [handle_error] and dropped, anything else is raised
    again. *)
Definition process_request (RequestHandlerClass : request -> M unit)
  (c : connection) : M unit :=
  try_except (finish_request RequestHandlerClass c)
    (fun e => if is_Exception e
              then Some (fun p => (Ret tt, p, [HandlerError e]))
              else None).

Fixpoint serve_requests (RequestHandlerClass : request -> M unit)
  (cs : list connection) : M unit :=
  match cs with
  | [] => ret tt
  | c :: rest =>
      process_request RequestHandlerClass c ;;
      serve_requests RequestHandlerClass rest
  end.

(** [httpd.serve_forever()]: one connection after the other, then the
    wait for the next; it returns only by an exception. *)
Definition serve_forever (RequestHandlerClass : request -> M unit) : M unit :=
  (fun p => (Ret tt, p, [ServeForever])) ;;
  serve_requests RequestHandlerClass (arriving W) ;;
  fun p => (match select_wake W with
            | Some e => Raise e
            | None => Blocked
            end, p, []).

End Libraries.

(** ** The script *)

Module DSPTestHandler.

(** [end_headers]: the three fixed fields, then the inherited method. *)
Definition end_headers (h : handler) : M handler :=
  let h := send_header h "Access-Control-Allow-Origin" "*" in
  let h := send_header h "Access-Control-Allow-Methods" "GET, POST, OPTIONS" in
  let h := send_header h "Access-Control-Allow-Headers" "Content-Type" in
  base_end_headers h.

(** [log_message]: [format % args] behind the globe, on standard output. *)
Definition log_message (h : handler) (format : string) (args : list value)
  : M unit :=
  match percent format args with
  | Some message => print ("🌐 " ++ message)
  | None => raise TypeError
  end.

#[global] Instance cls : HandlerClass :=
  {| self_end_headers := end_headers; self_log_message := log_message |}.

(** [__init__]: the directory handed to the parent class is read from the
    process when the handler is built, once for each request. *)
Definition __init__ (W : world) (rq : request) : M unit :=
  dir <- getcwd ;;
  SimpleHTTPRequestHandler_init W dir rq.

End DSPTestHandler.

Definition start_test_server (W : world) (port : Z) : M unit :=
  found <- Path_exists W "test-page.html" ;;
  if negb found then
    print "❌ test-page.html not found in current directory" ;;
    print "💡 Make sure you're running this from the project root directory"
  else
    try_except
      (with_server (TCPServer W port)
         (print "🚀 DSP Extension Test Server Starting..." ;;
          print ("📡 Server running at: http://localhost:" ++ str_of_int port) ;;
          print ("🧪 Test page: http://localhost:" ++ str_of_int port
                 ++ "/test-page.html") ;;
          print "📝 Your HTML file: Place your DSP HTML file in this directory" ;;
          print "" ;;
          print "🔧 Extension Setup:" ;;
          print "1. Load your extension in the browser" ;;
          print "2. Open the test URL above" ;;
          print "3. Extension should automatically activate and highlight mismatches" ;;
          print "" ;;
          print "⏹️  Press Ctrl+C to stop the server" ;;
          print "" ;;
          try_except
            (webbrowser_open W ("http://localhost:" ++ str_of_int port
                                ++ "/test-page.html") ;;
             print "🌐 Opening test page in browser...")
            (fun _ =>
               Some (print "ℹ️  Manually open http://localhost:{port}/test-page.html in your browser")) ;;
          serve_forever W (DSPTestHandler.__init__ W)))
      (fun e =>
         match e with
         | OSError errno strerror =>
             Some (if contains "Address already in use"
                        (str_OSError errno strerror)
                   then
                     print ("❌ Port " ++ str_of_int port ++ " is already in use") ;;
                     print ("💡 Try a different port: python local-test-server.py "
                            ++ str_of_int (port + 1))
                   else
                     print ("❌ Error starting server: "
                            ++ str_OSError errno strerror))
         | KeyboardInterrupt =>
             Some (print (String lf "⏹️  Server stopped by user"))
         | _ => None
         end).

(** The block under [if __name__ == "__main__"], [argv] being [sys.argv]. *)
Definition main (W : world) (argv : list string) : M unit :=
  port <- (if (1 <? length argv)%nat then
             try_except
               (match int (nth 1 argv "") with
                | Some n => ret n
                | None => raise ValueError
                end)
               (fun e =>
                  match e with
                  | ValueError =>
                      Some (print "❌ Invalid port number" ;; sys_exit 1)
                  | _ => None
                  end)
           else ret 8000) ;;
  start_test_server W port.

(** The script run as a program from directory [dir]: how the interpreter
    ends, the process it leaves and what was observed. *)
Definition script (W : world) (argv : list string) (dir : string)
  : exit * process * list event :=
  match main W argv (boot dir) with
  | (r, p, t) => (interpreter r, p, t)
  end.

(** ** What the properties speak of *)

(** The three fields of [DSPTestHandler.end_headers] as they stand on the
    wire. *)
Definition header_line (keyword value : string) : string :=
  keyword ++ ": " ++ value ++ crlf.

Definition cors_block : string :=
  header_line "Access-Control-Allow-Origin" "*"
  ++ header_line "Access-Control-Allow-Methods" "GET, POST, OPTIONS"
  ++ header_line "Access-Control-Allow-Headers" "Content-Type".

(** A response carries the three fields when each line occurs in it. *)
Definition carries_cors (bytes : string) : bool :=
  contains (header_line "Access-Control-Allow-Origin" "*") bytes
  && contains (header_line "Access-Control-Allow-Methods" "GET, POST, OPTIONS") bytes
  && contains (header_line "Access-Control-Allow-Headers" "Content-Type") bytes.

(** Status line and fields of a reply, before the fields of the script. *)
Definition head (W : world) (r : reply) : string :=
  (protocol_version ++ " " ++ str_of_int (status r) ++ " " ++ reason r ++ crlf)
  ++ header_line "Server" (version_string W)
  ++ header_line "Date" (date_time_string W)
  ++ String.concat "" (map (fun kv => header_line (fst kv) (snd kv)) (fields r)).

(** [request_version] when the answer to a request line is sent, told
    from the line: empty for a line too long; the last word of a line of
    three words or more when this word is [HTTP/], an integer, a dot and
    an integer and the pair is below (2, 0); [HTTP/0.9] in every other
    case. *)
Definition version_sent (line : string) : string :=
  match line with
  | "" => ""
  | _ =>
      let words := split line in
      if (3 <=? List.length words)%nat then
        match version_number (last words "") with
        | Some (major, minor) =>
            if (major <? 2) || ((major =? 2) && (minor <? 0))
            then latin1 (last words "")
            else "HTTP/0.9"
        | None => "HTTP/0.9"
        end
      else "HTTP/0.9"
  end.

(** The bytes a request is answered with when [dir] is served. *)
Definition answer (W : world) (dir : string) (rq : request) : string :=
  let r := static_reply W dir rq in
  if String.eqb (rq_version rq) "HTTP/0.9" then body r
  else head W r ++ cors_block ++ crlf ++ body r.

(** The line [log_request] prints for a request answered with [code]. *)
Definition log_line (requestline : string) (code : Z) : string :=
  "🌐 " ++ dq ++ requestline ++ dq ++ " " ++ str_of_int code ++ " -".

(** The line [send_error] logs before it answers. *)
Definition error_line (code : Z) (message : string) : string :=
  "🌐 code " ++ str_of_int code ++ ", message " ++ message.

(** The lines logged for one request. *)
Definition logged (W : world) (dir : string) (rq : request) : list event :=
  let r := static_reply W dir rq in
  ((if rq_refused rq || error r
    then [Print (error_line (status r) (reason r))] else [])
   ++ [Print (log_line (rq_requestline rq) (status r))])%list.

(** Whether anything is written to the client of a request: nothing is
    for [HTTP/0.9] without a body. *)
Definition writes (W : world) (dir : string) (rq : request) : bool :=
  negb (String.eqb (rq_version rq) "HTTP/0.9"
        && String.eqb (body (static_reply W dir rq)) "").

(** What one request leaves in the trace: its log lines, then what its
    client received, or the error of the first write when the client has
    gone and there was something to write. *)
Definition served (W : world) (dir : string) (rq : request) : list event :=
  (logged W dir rq
   ++ match rq_lost rq with
      | None => [Response rq dir (answer W dir rq)]
      | Some (errno, strerror) =>
          if writes W dir rq then [HandlerError (OSError errno strerror)]
          else []
      end)%list.

(** What the serve loop leaves in the trace for the connections [cs]: it
    goes no further than a connection on which the handler waits for
    ever, or is woken by something that is not an [Exception]. *)
Fixpoint loop_events (W : world) (dir : string) (cs : list connection)
  : list event :=
  match cs with
  | [] => []
  | Sends raw gone :: rest =>
      (match classify raw gone with
       | Some rq => served W dir rq
       | None => []
       end ++ loop_events W dir rest)%list
  | Stalls (Some e) :: rest =>
      if is_Exception e then HandlerError e :: loop_events W dir rest else []
  | Stalls None :: _ => []
  end.

(** What ends the serve loop: [wake] when all of [cs] are through, what
    wakes the first handler that is not woken by an [Exception] otherwise;
    [None] when nothing ever ends it. *)
Fixpoint loop_end (cs : list connection) (wake : option exn) : option exn :=
  match cs with
  | [] => wake
  | Sends _ _ :: rest => loop_end rest wake
  | Stalls (Some e) :: rest => if is_Exception e then loop_end rest wake else Some e
  | Stalls None :: _ => None
  end.

(** The requests of [cs] that are answered: those that reach the loop
    before it ends, hold a word, and whose client is still there. *)
Fixpoint loop_answered (cs : list connection) : list request :=
  match cs with
  | [] => []
  | Sends raw None :: rest =>
      match classify raw None with
      | Some rq => rq :: loop_answered rest
      | None => loop_answered rest
      end
  | Sends _ (Some _) :: rest => loop_answered rest
  | Stalls (Some e) :: rest => if is_Exception e then loop_answered rest else []
  | Stalls None :: _ => []
  end.

(** The requests that come in and are answered, and what ends
    [serve_forever], Ctrl+C being [Some KeyboardInterrupt], wherever it
    strikes: in the wait for a connection or in a handler that waits for
    its request line. *)
Definition incoming (W : world) : list request := loop_answered (arriving W).

Definition interrupt (W : world) : option exn :=
  loop_end (arriving W) (select_wake W).

Definition test_url (port : Z) : string :=
  "http://localhost:" ++ str_of_int port ++ "/test-page.html".

(** The note of the [except] suite, and the text it would be with the
    port put in. *)
Definition manual_note : string :=
  "ℹ️  Manually open http://localhost:{port}/test-page.html in your browser".

Definition interpolated_note (port : Z) : string :=
  "ℹ️  Manually open http://localhost:" ++ str_of_int port
  ++ "/test-page.html in your browser".

Definition banner (port : Z) : list event :=
  [Print "🚀 DSP Extension Test Server Starting...";
   Print ("📡 Server running at: http://localhost:" ++ str_of_int port);
   Print ("🧪 Test page: " ++ test_url port);
   Print "📝 Your HTML file: Place your DSP HTML file in this directory";
   Print "";
   Print "🔧 Extension Setup:";
   Print "1. Load your extension in the browser";
   Print "2. Open the test URL above";
   Print "3. Extension should automatically activate and highlight mismatches";
   Print "";
   Print "⏹️  Press Ctrl+C to stop the server";
   Print ""].

(** What the browser attempt leaves in the trace. *)
Definition browser_events (W : world) (port : Z) : list event :=
  match browser W (test_url port) with
  | Some _ => [Browser (test_url port); Print manual_note]
  | None => [Browser (test_url port); Print "🌐 Opening test page in browser..."]
  end.

(** What a bound server leaves in the trace up to the end of its serve
    loop: the socket, the banner, the browser attempt and the requests. *)
Definition serving (W : world) (port : Z) (dir : string) : list event :=
  (Socket port :: banner port ++ browser_events W port
   ++ ServeForever :: loop_events W dir (arriving W))%list.

(** The addresses handed to [webbrowser.open], in order. *)
Definition browsed (t : list event) : list string :=
  flat_map (fun e => match e with Browser url => [url] | _ => [] end) t.

(** The number of [server_close()] calls. *)
Definition closes (t : list event) : nat :=
  List.length (filter (fun e => match e with Close => true | _ => false end) t).

(** The lines of a failed start, after the socket and its closing. *)
Definition start_error_lines (port errno : Z) (strerror : string)
  : list event :=
  if contains "Address already in use" (str_OSError errno strerror)
  then [Print ("❌ Port " ++ str_of_int port ++ " is already in use");
        Print ("💡 Try a different port: python local-test-server.py "
               ++ str_of_int (port + 1))]
  else [Print ("❌ Error starting server: " ++ str_OSError errno strerror)].

(** The value of the decimal numeral [d] read after the value [acc]. *)
Fixpoint uint_val (d : Decimal.uint) (acc : Z) : Z :=
  match d with
  | Decimal.Nil => acc
  | Decimal.D0 d => uint_val d (10 * acc)
  | Decimal.D1 d => uint_val d (10 * acc + 1)
  | Decimal.D2 d => uint_val d (10 * acc + 2)
  | Decimal.D3 d => uint_val d (10 * acc + 3)
  | Decimal.D4 d => uint_val d (10 * acc + 4)
  | Decimal.D5 d => uint_val d (10 * acc + 5)
  | Decimal.D6 d => uint_val d (10 * acc + 6)
  | Decimal.D7 d => uint_val d (10 * acc + 7)
  | Decimal.D8 d => uint_val d (10 * acc + 8)
  | Decimal.D9 d => uint_val d (10 * acc + 9)
  end.

(** *** Sample surroundings *)

Definition get_page : request :=
  mkRequest "GET /test-page.html HTTP/1.1" None eq_refl.

(** The same request as a line of two words. *)
Definition get_page_09 : request :=
  mkRequest "GET /test-page.html" None eq_refl.

(** The same with a version that [parse_request] refuses. *)
Definition get_page_20 : request :=
  mkRequest "GET /test-page.html HTTP/2.0" None eq_refl.

(** A directory that holds the page, port 8000 taken by another process,
    no browser to launch, two requests and then Ctrl+C; the page reads
    [hello], and what the library refuses gets a short error page. *)
Definition sample : world := {|
  fs_exists := fun _ name => String.eqb name "test-page.html";
  os_bind := fun port =>
    if port =? 8000 then Some (98, "Address already in use") else None;
  ephemeral := 41091;
  browser := fun _ => Some (OtherError "webbrowser.Error");
  arriving := [Sends ("GET /test-page.html HTTP/1.1" ++ crlf) None;
               Sends ("GET /test-page.html" ++ crlf) None];
  select_wake := Some KeyboardInterrupt;
  static_reply := fun _ rq =>
    if rq_refused rq
    then mkReply true 400 "Bad request"
           [("Connection", "close"); ("Content-Type", "text/html;charset=utf-8");
            ("Content-Length", "11")] "Bad request"
    else mkReply false 200 "OK"
           [("Content-type", "text/html"); ("Content-Length", "5")] "hello";
  version_string := "SimpleHTTP/0.6 Python/3.11.2";
  date_time_string := "Tue, 03 Nov 2026 10:00:00 GMT"
|}.

(** [W] with other connections and another end of the wait. *)
Definition with_traffic (W : world) (cs : list connection)
  (wake : option exn) : world := {|
  fs_exists := fs_exists W;
  os_bind := os_bind W;
  ephemeral := ephemeral W;
  browser := browser W;
  arriving := cs;
  select_wake := wake;
  static_reply := static_reply W;
  version_string := version_string W;
  date_time_string := date_time_string W
|}.

(** As [sample], in a directory without the page. *)
Definition elsewhere : world := {|
  fs_exists := fun _ _ => false;
  os_bind := os_bind sample;
  ephemeral := ephemeral sample;
  browser := browser sample;
  arriving := arriving sample;
  select_wake := select_wake sample;
  static_reply := static_reply sample;
  version_string := version_string sample;
  date_time_string := date_time_string sample
|}.

(** As [sample], with a browser that opens. *)
Definition with_browser : world := {|
  fs_exists := fs_exists sample;
  os_bind := os_bind sample;
  ephemeral := ephemeral sample;
  browser := fun _ => None;
  arriving := arriving sample;
  select_wake := select_wake sample;
  static_reply := static_reply sample;
  version_string := version_string sample;
  date_time_string := date_time_string sample
|}.

(** As [sample], with every port refused for the reason given. *)
Definition refusing (errno : Z) (strerror : string) : world := {|
  fs_exists := fs_exists sample;
  os_bind := fun _ => Some (errno, strerror);
  ephemeral := ephemeral sample;
  browser := browser sample;
  arriving := arriving sample;
  select_wake := select_wake sample;
  static_reply := static_reply sample;
  version_string := version_string sample;
  date_time_string := date_time_string sample
|}.

(** A busy afternoon: a request, a line with a bad version, an empty
    line, a client that hangs up before its answer, one whose connection
    is reset before it sends a line, then one that connects and stays
    silent until Ctrl+C, with a last request still waiting behind it. *)
Definition busy : world :=
  with_traffic sample
    [Sends ("GET /test-page.html HTTP/1.1" ++ crlf) None;
     Sends ("GET /test-page.html HTTP/2.0" ++ crlf) None;
     Sends crlf None;
     Sends ("GET /test-page.html HTTP/1.1" ++ crlf) (Some (32, "Broken pipe"));
     Stalls (Some (OSError 104 "Connection reset by peer"));
     Stalls (Some KeyboardInterrupt);
     Sends ("GET /test-page.html HTTP/1.1" ++ crlf) None]
    None.
(** ** Lemmas on the runtime *)

Lemma bind_ret_l {A B : Type} (a : A) (k : A -> M B) (p : process) :
  bind (ret a) k p = k a p.
Proof. unfold bind, ret. destruct (k a p) as [[r p2] t2]. reflexivity. Qed.

Lemma prefix_append (a b : string) : String.prefix a (a ++ b) = true.
Proof.
  induction a as [|c a IH]; simpl.
  - destruct b; reflexivity.
  - destruct (ascii_dec c c) as [_|n]; [exact IH | contradiction].
Qed.

Lemma contains_prefix (n b : string) : contains n (n ++ b) = true.
Proof.
  pose proof (prefix_append n b) as H.
  destruct (n ++ b)%string; cbn [contains]; rewrite H; reflexivity.
Qed.

(** A needle is found wherever it stands in the hay. *)
Lemma contains_append (n a b : string) : contains n (a ++ n ++ b) = true.
Proof.
  induction a as [|c a IH].
  - cbn [append]. apply contains_prefix.
  - cbn [append contains]. destruct (String.prefix n (String c (a ++ n ++ b))); [reflexivity | exact IH].
Qed.

Lemma contains_later (n a b : string) : contains n b = true -> contains n (a ++ b) = true.
Proof.
  intros H. induction a as [|c a IH]; [exact H|].
  cbn [append contains]. destruct (String.prefix n (String c (a ++ b))); [reflexivity | exact IH].
Qed.

Lemma append_assoc (a b c : string) : ((a ++ b) ++ c = a ++ b ++ c)%string.
Proof. induction a as [|x a IH]; simpl; [reflexivity | now rewrite IH]. Qed.

Lemma append_nil_r (a : string) : (a ++ "")%string = a.
Proof. induction a as [|x a IH]; simpl; [reflexivity | now rewrite IH]. Qed.

Lemma contains_refl (n : string) : contains n n = true.
Proof. rewrite <- (append_nil_r n) at 2. apply contains_prefix. Qed.

Lemma concat_cons (x : string) (l : list string) :
  String.concat "" (x :: l) = (x ++ String.concat "" l)%string.
Proof. destruct l; simpl; [now rewrite append_nil_r | reflexivity]. Qed.

(** [b"".join] distributes over the concatenation of lists. *)
Lemma concat_app (a b : list string) :
  String.concat "" (a ++ b) = (String.concat "" a ++ String.concat "" b)%string.
Proof.
  induction a as [|x a IH]; [reflexivity|].
  rewrite <- app_comm_cons, !concat_cons, IH, append_assoc. reflexivity.
Qed.

(** ** The header buffer *)

Lemma send_header_buffer (h : handler) (b : list string) (k v : string) :
  is_http09 h = false -> _headers_buffer h = Some b ->
  send_header h k v = set_buffer h (Some (b ++ [header_line k v])%list).
Proof.
  intros E Hb. unfold send_header, buffer_append. rewrite E, Hb. reflexivity.
Qed.

Lemma send_header_set (h : handler) (b : list string) (k v : string) :
  is_http09 h = false ->
  send_header (set_buffer h (Some b)) k v =
  set_buffer h (Some (b ++ [header_line k v])%list).
Proof.
  intros E. unfold send_header, buffer_append.
  change (is_http09 (set_buffer h (Some b))) with (is_http09 h).
  rewrite E. reflexivity.
Qed.

Lemma send_fields_http09 (h : handler) (l : list (string * string)) :
  is_http09 h = true -> send_fields h l = h.
Proof.
  intros E. unfold send_fields. induction l as [|kv l IH]; [reflexivity|].
  cbn [fold_left]. unfold send_header at 2. rewrite E. exact IH.
Qed.

Lemma send_fields_buffer (l : list (string * string)) :
  forall (h : handler) (b : list string),
    is_http09 h = false -> _headers_buffer h = Some b ->
    send_fields h l =
    set_buffer h (Some (b ++ map (fun kv => header_line (fst kv) (snd kv)) l)%list).
Proof.
  unfold send_fields.
  induction l as [|kv l IH]; intros h b E Hb; cbn [fold_left map].
  - rewrite app_nil_r, <- Hb. destruct h; reflexivity.
  - rewrite (send_header_buffer h b _ _ E Hb).
    erewrite IH; [ | exact E | reflexivity ].
    rewrite <- app_assoc. reflexivity.
Qed.

Lemma write_taken (h : handler) (bytes : string) (p : process) :
  lost h = None -> write h bytes p = (Ret (written h bytes), p, []).
Proof. intros H. unfold write. rewrite H. reflexivity. Qed.

Lemma write_lost (h : handler) (bytes : string) (p : process)
  (errno : Z) (strerror : string) :
  lost h = Some (errno, strerror) ->
  write h bytes p = (Raise (OSError errno strerror), p, []).
Proof. intros H. unfold write. rewrite H. reflexivity. Qed.

(** The three fields join what is buffered, and the blank line ends
    it. *)
Lemma end_headers_flushes (h : handler) (b : list string) (p : process) :
  is_http09 h = false -> _headers_buffer h = Some b ->
  DSPTestHandler.end_headers h p
  = bind (write (set_buffer h (Some (b ++ [header_line "Access-Control-Allow-Origin" "*";
                                            header_line "Access-Control-Allow-Methods" "GET, POST, OPTIONS";
                                            header_line "Access-Control-Allow-Headers" "Content-Type";
                                            crlf])%list))
                 (String.concat "" b ++ cors_block ++ crlf))
      (fun h' => ret (set_buffer h' (Some []))) p.
Proof.
  intros E Hb. unfold DSPTestHandler.end_headers.
  rewrite (send_header_buffer h b _ _ E Hb).
  rewrite !(send_header_set _ _ _ _ E).
  unfold base_end_headers.
  change (is_http09 (set_buffer ?x ?y)) with (is_http09 x).
  rewrite E. cbn [_headers_buffer set_buffer].
  unfold flush_headers. cbn [_headers_buffer set_buffer].
  rewrite <- !app_assoc. cbn [app].
  rewrite concat_app, !concat_cons. unfold cors_block. cbn [String.concat].
  rewrite !append_assoc. reflexivity.
Qed.

(** With a version other than [HTTP/0.9] and a client that is there,
    [end_headers] writes the buffer, the three fields and the blank line,
    and empties the buffer. *)
Lemma end_headers_wire (h : handler) (b : list string) (p : process) :
  is_http09 h = false -> _headers_buffer h = Some b -> lost h = None ->
  DSPTestHandler.end_headers h p =
  (Ret (set_buffer (written h (String.concat "" b ++ cors_block ++ crlf)) (Some [])),
   p, []).
Proof.
  intros E Hb Hl. rewrite (end_headers_flushes h b p E Hb).
  unfold bind. rewrite write_taken by exact Hl. reflexivity.
Qed.

(** With a client that has gone, the write raises. *)
Lemma end_headers_gone (h : handler) (b : list string) (p : process)
  (errno : Z) (strerror : string) :
  is_http09 h = false -> _headers_buffer h = Some b ->
  lost h = Some (errno, strerror) ->
  DSPTestHandler.end_headers h p = (Raise (OSError errno strerror), p, []).
Proof.
  intros E Hb Hl. rewrite (end_headers_flushes h b p E Hb).
  unfold bind. rewrite (write_lost _ _ _ errno strerror) by exact Hl.
  reflexivity.
Qed.

(** With [HTTP/0.9] it writes nothing. *)
Lemma end_headers_http09 (h : handler) (p : process) :
  is_http09 h = true -> DSPTestHandler.end_headers h p = (Ret h, p, []).
Proof.
  intros E. unfold DSPTestHandler.end_headers, send_header, base_end_headers.
  rewrite !E. reflexivity.
Qed.

(** On a handler without buffer, [end_headers] goes as on one whose
    buffer is empty. *)
Lemma end_headers_fresh (h : handler) (p : process) :
  is_http09 h = false -> _headers_buffer h = None ->
  DSPTestHandler.end_headers h p
  = DSPTestHandler.end_headers (set_buffer h (Some [])) p.
Proof.
  intros E Hb. unfold DSPTestHandler.end_headers.
  replace (send_header h "Access-Control-Allow-Origin" "*")
    with (send_header (set_buffer h (Some [])) "Access-Control-Allow-Origin" "*");
    [reflexivity|].
  unfold send_header, buffer_append.
  change (is_http09 (set_buffer h (Some []))) with (is_http09 h).
  rewrite E, Hb. reflexivity.
Qed.

(** ** Logging and one request *)

Lemma log_message_prints (h : handler) (format : string) (args : list value)
  (message : string) (p : process) :
  percent format args = Some message ->
  DSPTestHandler.log_message h format args p = (Ret tt, p, [Print ("🌐 " ++ message)]).
Proof. intros H. unfold DSPTestHandler.log_message. rewrite H. reflexivity. Qed.

Lemma percent_log_request (a b c : string) :
  percent (dq ++ "%s" ++ dq ++ " %s %s") [VStr a; VStr b; VStr c]
  = Some (dq ++ a ++ dq ++ " " ++ b ++ " " ++ c)%string.
Proof. cbn. rewrite append_nil_r. reflexivity. Qed.

Lemma percent_log_error (code : Z) (message : string) :
  percent "code %d, message %s" [VInt code; VStr message]
  = Some ("code " ++ str_of_int code ++ ", message " ++ message)%string.
Proof. cbn. rewrite append_nil_r. reflexivity. Qed.

Lemma log_error_prints (h : handler) (code : Z) (message : string) (p : process) :
  log_error (cls := DSPTestHandler.cls) h "code %d, message %s"
    [VInt code; VStr message] p
  = (Ret tt, p, [Print (error_line code message)]).
Proof.
  unfold log_error. cbn [self_log_message DSPTestHandler.cls].
  apply log_message_prints. apply percent_log_error.
Qed.

Lemma log_request_prints (h : handler) (code : Z) (p : process) :
  log_request (cls := DSPTestHandler.cls) h code p
  = (Ret tt, p, [Print (log_line (requestline h) code)]).
Proof.
  unfold log_request. cbn [self_log_message DSPTestHandler.cls].
  apply log_message_prints. apply percent_log_request.
Qed.

Lemma send_response_spec (W : world) (h : handler) (code : Z) (message : string)
  (p : process) :
  send_response (cls := DSPTestHandler.cls) W h code message p =
  (Ret (send_header
          (send_header (send_response_only h code message)
             "Server" (version_string W))
          "Date" (date_time_string W)),
   p, [Print (log_line (requestline h) code)]).
Proof.
  unfold send_response, bind. rewrite log_request_prints. reflexivity.
Qed.

(** Handling one request leaves the process as it was and logs as
    [logged] says; a client that is there receives its answer, from the
    directory of the process; with a client that has gone the first write
    raises, if there is one. *)
Lemma init_spec (W : world) (rq : request) (p : process) :
  DSPTestHandler.__init__ W rq p
  = match rq_lost rq with
    | None =>
        (Ret tt, p,
         (logged W (cwd p) rq ++ [Response rq (cwd p) (answer W (cwd p) rq)])%list)
    | Some (errno, strerror) =>
        if writes W (cwd p) rq
        then (Raise (OSError errno strerror), p, logged W (cwd p) rq)
        else (Ret tt, p, logged W (cwd p) rq)
    end.
Proof.
  unfold DSPTestHandler.__init__, getcwd, bind at 1.
  unfold SimpleHTTPRequestHandler_init, respond.
  set (h := mkHandler _ _ _ _ _ _ _ _).
  change (directory h) with (cwd p).
  set (r := static_reply W (cwd p) rq).
  unfold logged, writes, answer. fold r. cbv zeta.
  assert (L : (if rq_refused rq || error r
               then log_error (cls := DSPTestHandler.cls) h "code %d, message %s"
                      [VInt (status r); VStr (reason r)]
               else ret tt) p
              = (Ret tt, p,
                 if rq_refused rq || error r
                 then [Print (error_line (status r) (reason r))]
                 else [])).
  { destruct (rq_refused rq || error r); [apply log_error_prints | reflexivity]. }
  unfold bind. rewrite L, send_response_spec. clear L.
  cbn [self_end_headers DSPTestHandler.cls].
  change (requestline h) with (rq_requestline rq).
  destruct (String.eqb (rq_version rq) "HTTP/0.9") eqn:E.
  - assert (E' : is_http09 h = true) by exact E.
    unfold send_response_only, send_header at 1 2. rewrite !E'.
    rewrite (send_fields_http09 _ _ E'), (end_headers_http09 _ _ E').
    unfold write. change (lost h) with (rq_lost rq).
    destruct (String.eqb (body r) "") eqn:B;
      [apply String.eqb_eq in B; rewrite ?B|];
      destruct (rq_refused rq || error r),
        (rq_lost rq) as [[errno strerror]|]; reflexivity.
  - assert (E' : is_http09 h = false) by exact E.
    unfold send_response_only, buffer_append. rewrite E'.
    change (_headers_buffer h) with (@None (list string)). cbv iota.
    rewrite !(send_header_set _ _ _ _ E').
    erewrite send_fields_buffer; [ | exact E' | reflexivity ].
    cbn [andb negb].
    destruct (rq_lost rq) as [[errno strerror]|] eqn:Hl.
    + erewrite end_headers_gone; [ | exact E' | reflexivity | reflexivity ].
      destruct (rq_refused rq || error r); reflexivity.
    + erewrite end_headers_wire; [ | exact E' | reflexivity | reflexivity ].
      unfold write.
      cbn [lost set_buffer written h].
      destruct (rq_refused rq || error r), (String.eqb (body r) "") eqn:B;
        unfold ret; cbn [written wfile set_buffer h app lost];
        cbn [app];
        try (apply String.eqb_eq in B; rewrite B);
        unfold head, header_line;
        rewrite !concat_cons; cbn [directory requestline written set_buffer h];
        change ("" ++ ?x)%string with x;
        rewrite ?append_assoc, ?append_nil_r; reflexivity.
Qed.

(** ** The serve loop and the routine, branch by branch *)

Lemma bind_assoc {A B C : Type} (a : M A) (f : A -> M B) (g : B -> M C)
  (p : process) :
  bind (bind a f) g p = bind a (fun x => bind (f x) g) p.
Proof.
  unfold bind. destruct (a p) as [[[x| |] p1] t1]; try reflexivity.
  destruct (f x p1) as [[[y| |] p2] t2]; try reflexivity.
  destruct (g y p2) as [[r p3] t3]. rewrite app_assoc. reflexivity.
Qed.

Lemma bind_print {A : Type} (line : string) (k : unit -> M A) (p : process) :
  bind (print line) k p
  = match k tt p with (r, p2, t2) => (r, p2, Print line :: t2) end.
Proof. reflexivity. Qed.

Lemma bind_step {A B : Type} (c : M A) (k : A -> M B) (p p1 : process)
  (a : A) (t1 : list event) :
  c p = (Ret a, p1, t1) ->
  bind c k p = match k a p1 with (r, p2, t2) => (r, p2, (t1 ++ t2)%list) end.
Proof. intros H. unfold bind. rewrite H. reflexivity. Qed.

Lemma request_of_spec (line : string) (gone : option (Z * string))
  (rq : request) :
  request_of line gone = Some rq -> rq_line rq = line /\ rq_lost rq = gone.
Proof.
  unfold request_of.
  generalize (@eq_refl bool (answered line)).
  generalize (answered line) at 2 3.
  intros b; destruct b; intros H E; [|discriminate].
  injection E as <-. split; reflexivity.
Qed.

Lemma classify_lost (raw : string) (gone : option (Z * string)) (rq : request) :
  classify raw gone = Some rq -> rq_lost rq = gone.
Proof.
  unfold classify.
  destruct (65536 <? Z.of_nat (String.length raw)).
  - intros H. apply (request_of_spec _ _ _ H).
  - destruct (rstrip_crlf raw); [discriminate|].
    intros H. apply (request_of_spec _ _ _ H).
Qed.

(** One connection: the loop goes on after it unless its handler waits
    for ever or is woken by something that is not an [Exception]. *)
Lemma process_sends (W : world) (raw : string) (gone : option (Z * string))
  (p : process) :
  process_request (DSPTestHandler.__init__ W) (Sends raw gone) p
  = (Ret tt, p,
     match classify raw gone with
     | Some rq => served W (cwd p) rq
     | None => []
     end).
Proof.
  unfold process_request, try_except, finish_request.
  destruct (classify raw gone) as [rq|]; [|reflexivity].
  rewrite init_spec. unfold served.
  destruct (rq_lost rq) as [[errno strerror]|]; [|reflexivity].
  destruct (writes W (cwd p) rq); cbn [is_Exception];
    rewrite ?app_nil_r; reflexivity.
Qed.

Lemma serve_requests_spec (W : world) (cs : list connection) :
  forall (p : process) (wake : option exn),
    bind (serve_requests (DSPTestHandler.__init__ W) cs)
      (fun (_ : unit) (p' : process) =>
         (match wake return result unit with
          | Some e => Raise e
          | None => Blocked
          end, p', @nil event)) p
    = (match loop_end cs wake return result unit with
       | Some e => Raise e
       | None => Blocked
       end, p, loop_events W (cwd p) cs).
Proof.
  induction cs as [|c cs IH]; intros p wake.
  - reflexivity.
  - cbn [serve_requests]. rewrite bind_assoc.
    destruct c as [raw gone|[e|]].
    + rewrite (bind_step _ _ _ _ _ _ (process_sends W raw gone p)).
      rewrite IH. reflexivity.
    + cbn [loop_end loop_events].
      unfold bind at 1, process_request, try_except, finish_request.
      destruct (is_Exception e).
      * rewrite IH. reflexivity.
      * reflexivity.
    + reflexivity.
Qed.

Lemma serve_forever_spec (W : world) (p : process) :
  serve_forever W (DSPTestHandler.__init__ W) p
  = (match interrupt W with Some e => Raise e | None => Blocked end,
     p, ServeForever :: loop_events W (cwd p) (arriving W)).
Proof.
  unfold serve_forever. unfold bind at 1.
  rewrite serve_requests_spec. unfold interrupt.
  destruct (loop_end _ _); reflexivity.
Qed.

Lemma browser_attempt (W : world) (url opening note : string) (p : process) :
  try_except (webbrowser_open W url ;; print opening)
    (fun _ => Some (print note)) p
  = (Ret tt, p,
     match browser W url with
     | Some _ => [Browser url; Print note]
     | None => [Browser url; Print opening]
     end).
Proof.
  unfold try_except, bind, webbrowser_open.
  destruct (browser W url); reflexivity.
Qed.

Lemma in_range (port : Z) :
  0 <= port <= 65535 -> (port <? 0) || (65535 <? port) = false.
Proof. intros H. apply orb_false_iff; split; apply Z.ltb_ge; lia. Qed.

(** The routine with its socket bound, ending by ending. *)
Lemma start_bound_ending (W : world) (port : Z) (dir : string) :
  fs_exists W dir "test-page.html" = true ->
  0 <= port <= 65535 ->
  os_bind W port = None ->
  start_test_server W port (boot dir)
  = match interrupt W with
    | None =>
        (Blocked, {| cwd := dir; listening := Some (bound_port W port) |},
         serving W port dir)
    | Some KeyboardInterrupt =>
        (Ret tt, boot dir,
         (serving W port dir
          ++ [Close; Print (String lf "⏹️  Server stopped by user")])%list)
    | Some (OSError errno strerror) =>
        (Ret tt, boot dir,
         (serving W port dir
          ++ Close ::
             if contains "Address already in use" (str_OSError errno strerror)
             then [Print ("❌ Port " ++ str_of_int port ++ " is already in use");
                   Print ("💡 Try a different port: python local-test-server.py "
                          ++ str_of_int (port + 1))]
             else [Print ("❌ Error starting server: "
                          ++ str_OSError errno strerror)])%list)
    | Some e => (Raise e, boot dir, (serving W port dir ++ [Close])%list)
    end.
Proof.
  intros Hex Hport Hbind.
  unfold start_test_server, Path_exists. unfold bind at 1.
  cbn [cwd boot]. rewrite Hex. cbn [negb].
  unfold try_except at 1, with_server. unfold bind at 1. unfold TCPServer.
  rewrite (in_range _ Hport), Hbind.
  repeat (rewrite bind_print; cbv beta).
  rewrite (bind_step _ _ _ _ _ _ (browser_attempt W _ _ _ _)).
  rewrite serve_forever_spec. cbn [cwd].
  fold (test_url port). fold manual_note. fold (browser_events W port).
  unfold serving, banner.
  destruct (interrupt W) as [e|]; [destruct e|];
    unfold server_close; cbv beta iota;
    try match goal with
        | |- context [contains ?a ?b] => destruct (contains a b)
        end;
    unfold print, bind;
    cbn [app cwd boot]; rewrite <- ?app_assoc; cbn [app]; reflexivity.
Qed.

(** The routine without the page. *)
Lemma start_missing (W : world) (port : Z) (p : process) :
  fs_exists W (cwd p) "test-page.html" = false ->
  start_test_server W port p
  = (Ret tt, p,
     [Print "❌ test-page.html not found in current directory";
      Print "💡 Make sure you're running this from the project root directory"]).
Proof.
  intros H. unfold start_test_server, Path_exists. unfold bind at 1.
  rewrite H. reflexivity.
Qed.

(** The routine on a port that [socket.bind] refuses. *)
Lemma start_out_of_range (W : world) (port : Z) (p : process) :
  fs_exists W (cwd p) "test-page.html" = true ->
  (port <? 0) || (65535 <? port) = true ->
  start_test_server W port p = (Raise OverflowError, p, [Socket port; Close]).
Proof.
  intros H R. unfold start_test_server, Path_exists. unfold bind at 1.
  rewrite H. cbn [negb]. unfold try_except, with_server, bind, TCPServer.
  rewrite R. reflexivity.
Qed.

(** The routine on a port that the system refuses. *)
Lemma start_refused (W : world) (port errno : Z) (strerror : string) (p : process) :
  fs_exists W (cwd p) "test-page.html" = true ->
  (port <? 0) || (65535 <? port) = false ->
  os_bind W port = Some (errno, strerror) ->
  start_test_server W port p
  = (Ret tt, p, Socket port :: Close :: start_error_lines port errno strerror).
Proof.
  intros H R B. unfold start_test_server, Path_exists. unfold bind at 1.
  rewrite H. cbn [negb]. unfold try_except, with_server. unfold bind at 1.
  unfold TCPServer. rewrite R, B. unfold start_error_lines.
  destruct (contains _ _); reflexivity.
Qed.

Lemma main_port (W : world) (argv : list string) (port : Z) (p : process) :
  (1 <? length argv)%nat = true -> int (nth 1 argv "") = Some port ->
  main W argv p = start_test_server W port p.
Proof.
  intros L H. unfold main. rewrite L, H.
  unfold try_except, ret, bind.
  destruct (start_test_server W port p) as [[r p2] t2]. reflexivity.
Qed.

Lemma main_default (W : world) (argv : list string) (p : process) :
  (1 <? length argv)%nat = false ->
  main W argv p = start_test_server W 8000 p.
Proof. intros L. unfold main. rewrite L. apply bind_ret_l. Qed.

Lemma main_invalid (W : world) (argv : list string) (p : process) :
  (1 <? length argv)%nat = true -> int (nth 1 argv "") = None ->
  main W argv p = (Raise (SystemExit 1), p, [Print "❌ Invalid port number"]).
Proof. intros L H. unfold main. rewrite L, H. reflexivity. Qed.

(** ** What a trace holds *)

Lemma responses_app (a b : list event) :
  responses (a ++ b) = (responses a ++ responses b)%list.
Proof. apply flat_map_app. Qed.

Lemma sockets_app (a b : list event) :
  sockets (a ++ b) = (sockets a ++ sockets b)%list.
Proof. apply flat_map_app. Qed.

Lemma browsed_app (a b : list event) :
  browsed (a ++ b) = (browsed a ++ browsed b)%list.
Proof. apply flat_map_app. Qed.

Lemma closes_app (a b : list event) : closes (a ++ b) = (closes a + closes b)%nat.
Proof. unfold closes. rewrite filter_app, length_app. reflexivity. Qed.

Lemma responses_logged (W : world) (dir : string) (rq : request) :
  responses (logged W dir rq) = [].
Proof. unfold logged. destruct (rq_refused rq || error _); reflexivity. Qed.

Lemma responses_served (W : world) (dir : string) (rq : request) :
  responses (served W dir rq)
  = match rq_lost rq with
    | None => [(rq, dir, answer W dir rq)]
    | Some _ => []
    end.
Proof.
  unfold served. rewrite responses_app, responses_logged.
  destruct (rq_lost rq) as [[errno strerror]|]; [|reflexivity].
  destruct (writes W dir rq); reflexivity.
Qed.

(** A served request leaves lines, a response or a handler error, and
    nothing else. *)
Lemma served_plain (W : world) (dir : string) (rq : request) :
  sockets (served W dir rq) = [] /\ browsed (served W dir rq) = []
  /\ closes (served W dir rq) = 0%nat.
Proof.
  unfold served, logged.
  destruct (rq_refused rq || error _), (rq_lost rq) as [[errno strerror]|];
    try destruct (writes W dir rq); repeat split.
Qed.

(** The responses of the serve loop are the answers to the requests that
    are answered, in their order. *)
Lemma responses_loop (W : world) (dir : string) (cs : list connection) :
  responses (loop_events W dir cs)
  = map (fun rq => (rq, dir, answer W dir rq)) (loop_answered cs).
Proof.
  induction cs as [|[raw gone|[e|]] cs IH]; cbn [loop_events loop_answered].
  - reflexivity.
  - rewrite responses_app, IH.
    destruct gone as [[errno strerror]|].
    + destruct (classify raw _) as [rq|] eqn:C; [|reflexivity].
      rewrite responses_served, (classify_lost _ _ _ C). reflexivity.
    + destruct (classify raw None) as [rq|] eqn:C; [|reflexivity].
      rewrite responses_served, (classify_lost _ _ _ C). reflexivity.
  - destruct (is_Exception e); [exact IH | reflexivity].
  - reflexivity.
Qed.

Lemma loop_plain (W : world) (dir : string) (cs : list connection) :
  sockets (loop_events W dir cs) = [] /\ browsed (loop_events W dir cs) = []
  /\ closes (loop_events W dir cs) = 0%nat.
Proof.
  induction cs as [|[raw gone|[e|]] cs (IH1 & IH2 & IH3)]; cbn [loop_events].
  - repeat split.
  - rewrite sockets_app, browsed_app, closes_app, IH1, IH2, IH3.
    destruct (classify raw gone) as [rq|]; [|repeat split].
    destruct (served_plain W dir rq) as (-> & -> & ->). repeat split.
  - destruct (is_Exception e); repeat split; assumption.
  - repeat split.
Qed.

Lemma responses_browser_events (W : world) (port : Z) :
  responses (browser_events W port) = [].
Proof. unfold browser_events. destruct (browser W _); reflexivity. Qed.

Lemma responses_serving (W : world) (port : Z) (dir : string) :
  responses (serving W port dir)
  = map (fun rq => (rq, dir, answer W dir rq)) (incoming W).
Proof.
  unfold serving.
  change (Socket port :: ?l) with ([Socket port] ++ l)%list.
  change (ServeForever :: ?l) with ([ServeForever] ++ l)%list.
  rewrite !responses_app, responses_loop, responses_browser_events.
  reflexivity.
Qed.

Lemma sockets_serving (W : world) (port : Z) (dir : string) :
  sockets (serving W port dir) = [port].
Proof.
  unfold serving.
  change (Socket port :: ?l) with ([Socket port] ++ l)%list.
  change (ServeForever :: ?l) with ([ServeForever] ++ l)%list.
  rewrite !sockets_app. destruct (loop_plain W dir (arriving W)) as (-> & _).
  unfold browser_events. destruct (browser W _); reflexivity.
Qed.

Lemma browsed_serving (W : world) (port : Z) (dir : string) :
  browsed (serving W port dir) = [test_url port].
Proof.
  unfold serving.
  change (Socket port :: ?l) with ([Socket port] ++ l)%list.
  change (ServeForever :: ?l) with ([ServeForever] ++ l)%list.
  rewrite !browsed_app. destruct (loop_plain W dir (arriving W)) as (_ & -> & _).
  unfold browser_events. destruct (browser W _); reflexivity.
Qed.

Lemma closes_serving (W : world) (port : Z) (dir : string) :
  closes (serving W port dir) = 0%nat.
Proof.
  unfold serving.
  change (Socket port :: ?l) with ([Socket port] ++ l)%list.
  change (ServeForever :: ?l) with ([ServeForever] ++ l)%list.
  rewrite !closes_app. destruct (loop_plain W dir (arriving W)) as (_ & _ & ->).
  unfold browser_events. destruct (browser W _); reflexivity.
Qed.

Lemma serves_serving (W : world) (port : Z) (dir : string) (t : list event) :
  serves (serving W port dir ++ t) = true.
Proof.
  unfold serves, serving. cbn [existsb orb app].
  rewrite <- !app_assoc, !existsb_app. cbn [app existsb orb].
  rewrite !orb_true_r. reflexivity.
Qed.

(** The four ways the routine goes, told apart by the surroundings. *)
Lemma start_cases (W : world) (port : Z) (dir : string) :
  (fs_exists W dir "test-page.html" = false
   /\ exists t, start_test_server W port (boot dir) = (Ret tt, boot dir, t)
                /\ sockets t = [] /\ browsed t = [] /\ responses t = [])
  \/ (fs_exists W dir "test-page.html" = true
      /\ (port < 0 \/ 65535 < port)
      /\ start_test_server W port (boot dir)
         = (Raise OverflowError, boot dir, [Socket port; Close]))
  \/ (fs_exists W dir "test-page.html" = true
      /\ 0 <= port <= 65535
      /\ (exists errno strerror, os_bind W port = Some (errno, strerror))
      /\ exists t, start_test_server W port (boot dir) = (Ret tt, boot dir, t)
                   /\ sockets t = [port] /\ browsed t = [] /\ responses t = [])
  \/ (fs_exists W dir "test-page.html" = true
      /\ 0 <= port <= 65535
      /\ os_bind W port = None
      /\ exists r p t_end,
           start_test_server W port (boot dir)
           = (r, p, (serving W port dir ++ t_end)%list)
           /\ sockets t_end = [] /\ browsed t_end = [] /\ responses t_end = []
           /\ match r with
              | Blocked => p = {| cwd := dir; listening := Some (bound_port W port) |}
              | _ => p = boot dir
              end).
Proof.
  destruct (fs_exists W dir "test-page.html") eqn:Hex.
  2: { left. split; [reflexivity|]. eexists.
       rewrite start_missing by exact Hex. repeat split. }
  right.
  destruct ((port <? 0) || (65535 <? port)) eqn:R.
  { left. split; [reflexivity|]. split.
    - apply orb_true_iff in R. destruct R as [R|R]; apply Z.ltb_lt in R; auto.
    - apply start_out_of_range; assumption. }
  right.
  assert (Hport : 0 <= port <= 65535).
  { apply orb_false_iff in R. destruct R as [R1 R2].
    apply Z.ltb_ge in R1, R2. split; assumption. }
  destruct (os_bind W port) as [[errno strerror]|] eqn:B.
  { left. split; [reflexivity|]. split; [exact Hport|].
    split; [exists errno, strerror; reflexivity|].
    eexists. rewrite (start_refused W port errno strerror) by assumption.
    split; [reflexivity|]. unfold start_error_lines.
    destruct (contains _ _); repeat split. }
  right. split; [reflexivity|]. split; [exact Hport|]. split; [reflexivity|].
  rewrite (start_bound_ending W port dir Hex Hport B).
  destruct (interrupt W) as [e|]; [destruct e|];
    try match goal with
        | |- context [contains ?a ?b] => destruct (contains a b)
        end;
    try (do 3 eexists; split; [reflexivity | repeat split]).
  exists Blocked, {| cwd := dir; listening := Some (bound_port W port) |}, [].
  rewrite app_nil_r. repeat split.
Qed.

(** A run of the routine stays in its directory, and answers either
    nothing or every request that is answered, from that directory. *)
Lemma start_responses (W : world) (port : Z) (dir : string) :
  let out := start_test_server W port (boot dir) in
  cwd (snd (fst out)) = dir
  /\ (responses (snd out) = []
      \/ responses (snd out) = map (fun rq => (rq, dir, answer W dir rq)) (incoming W)).
Proof.
  cbv zeta.
  destruct (start_cases W port dir)
    as [(_ & t & E & _ & _ & Hr)
       |[(_ & _ & E)
        |[(_ & _ & _ & t & E & _ & _ & Hr)
         |(_ & _ & _ & r & p & t_end & E & _ & _ & Hr & Hp)]]];
    rewrite E; cbn [fst snd].
  - split; [reflexivity | left; exact Hr].
  - split; [reflexivity | left; reflexivity].
  - split; [reflexivity | left; exact Hr].
  - split; [destruct r; subst p; reflexivity|]. right.
    rewrite responses_app, responses_serving, Hr. apply app_nil_r.
Qed.

(** The same of a run of the script. *)
Lemma script_responses (W : world) (argv : list string) (dir : string) :
  let out := script W argv dir in
  cwd (snd (fst out)) = dir
  /\ (responses (snd out) = []
      \/ responses (snd out) = map (fun rq => (rq, dir, answer W dir rq)) (incoming W)).
Proof.
  unfold script.
  assert (S : forall port,
             main W argv (boot dir) = start_test_server W port (boot dir) ->
             let out := match main W argv (boot dir) with
                        | (r, p, t) => (interpreter r, p, t)
                        end in
             cwd (snd (fst out)) = dir
             /\ (responses (snd out) = []
                 \/ responses (snd out)
                    = map (fun rq => (rq, dir, answer W dir rq)) (incoming W))).
  { intros port E. rewrite E. pose proof (start_responses W port dir) as H.
    destruct (start_test_server W port (boot dir)) as [[r p] t]. exact H. }
  destruct (1 <? length argv)%nat eqn:L.
  - destruct (int (nth 1 argv "")) as [port|] eqn:H.
    + apply (S port). apply main_port; assumption.
    + rewrite main_invalid by assumption. split; [reflexivity | left; reflexivity].
  - apply (S 8000). apply main_default; assumption.
Qed.

(** The run of a server that bound its port. *)
Lemma start_bound (W : world) (port : Z) (dir : string) :
  fs_exists W dir "test-page.html" = true ->
  0 <= port <= 65535 ->
  os_bind W port = None ->
  exists r p t_end,
    start_test_server W port (boot dir)
    = (r, p, (serving W port dir ++ t_end)%list)
    /\ sockets t_end = [] /\ browsed t_end = [] /\ responses t_end = []
    /\ match r with
       | Blocked => p = {| cwd := dir; listening := Some (bound_port W port) |}
       | _ => p = boot dir
       end.
Proof.
  intros Hex Hport Hbind.
  destruct (start_cases W port dir)
    as [(H & _)|[(_ & H & _)|[(_ & _ & (e & s & H) & _)|(_ & _ & _ & H)]]];
    [congruence | lia | congruence | exact H].
Qed.

(** Every socket the routine creates is closed again, once, unless the
    routine is still serving. *)
Lemma start_closes (W : world) (port : Z) (dir : string) :
  let out := start_test_server W port (boot dir) in
  closes (snd out)
  = match fst (fst out) with
    | Blocked => 0%nat
    | _ => List.length (sockets (snd out))
    end.
Proof.
  cbv zeta.
  destruct (fs_exists W dir "test-page.html") eqn:Hex.
  2: { rewrite start_missing by exact Hex. reflexivity. }
  destruct ((port <? 0) || (65535 <? port)) eqn:R.
  { rewrite start_out_of_range by assumption. reflexivity. }
  assert (Hport : 0 <= port <= 65535).
  { apply orb_false_iff in R. destruct R as [R1 R2].
    apply Z.ltb_ge in R1, R2. split; assumption. }
  destruct (os_bind W port) as [[errno strerror]|] eqn:B.
  { rewrite (start_refused W port errno strerror) by assumption.
    unfold start_error_lines. destruct (contains _ _); reflexivity. }
  rewrite (start_bound_ending W port dir Hex Hport B).
  destruct (interrupt W) as [e|]; [destruct e|]; cbn [fst snd];
    rewrite ?closes_app, ?sockets_app, ?closes_serving, ?sockets_serving;
    try match goal with
        | |- context [contains ?a ?b] => destruct (contains a b)
        end;
    reflexivity.
Qed.

(** ** The note of the [except] suite *)

(** [str(n)] starts with a digit or the minus sign, never with a brace. *)
Lemma str_of_int_head (n : Z) :
  exists c r, str_of_int n = String c r /\ c <> "{"%char.
Proof.
  unfold str_of_int.
  destruct (Z.to_int n) as [d|d]; destruct d; cbn;
    do 2 eexists; (split; [reflexivity | discriminate]).
Qed.

Lemma manual_note_not_interpolated (port : Z) :
  manual_note <> interpolated_note port.
Proof.
  unfold manual_note, interpolated_note.
  destruct (str_of_int_head port) as (c & r & -> & Hc).
  cbn [append]. intros H. injection H as H _. apply Hc. symmetry. exact H.
Qed.

(** ** [int] after [str] *)

Lemma uint_val_pos (d : Decimal.uint) (acc : positive) :
  Z.pos (Pos.of_uint_acc d acc) = uint_val d (Z.pos acc).
Proof.
  revert acc. induction d; intros acc; cbn [Pos.of_uint_acc uint_val];
    try reflexivity; rewrite IHd; f_equal; lia.
Qed.

Lemma uint_val_of_uint (d : Decimal.uint) : Z.of_uint d = uint_val d 0.
Proof.
  unfold Z.of_uint.
  induction d; cbn [Pos.of_uint uint_val Z.of_N]; try reflexivity;
    try (rewrite uint_val_pos; reflexivity).
  exact IHd.
Qed.

(** Reading the digits of a numeral gives its value, unless they are
    more than [max_str_digits]. *)
Lemma int_tail_uint (d : Decimal.uint) :
  forall (acc : Z) (k : nat),
    int_tail (NilEmpty.string_of_uint d) acc k
    = if (max_str_digits <? k + Decimal.nb_digits d)%nat then None
      else Some (uint_val d acc).
Proof.
  induction d; intros acc k;
    cbn [NilEmpty.string_of_uint Decimal.nb_digits uint_val int_tail];
    [ rewrite Nat.add_0_r; reflexivity | .. ];
    match goal with
    | |- context [digit_val ?c] =>
        let v := eval vm_compute in (digit_val c) in
        change (digit_val c) with v
    end; cbv iota;
    rewrite IHd, Nat.add_succ_r, ?Z.add_0_r; reflexivity.
Qed.

Lemma uint_val_lower (d : Decimal.uint) :
  forall acc : Z,
    0 <= acc -> acc * 10 ^ Z.of_nat (Decimal.nb_digits d) <= uint_val d acc.
Proof.
  induction d; intros acc Hacc; cbn [Decimal.nb_digits uint_val];
    [ cbn; lia | .. ];
    rewrite Nat2Z.inj_succ, Z.pow_succ_r by lia;
    match goal with
    | |- _ <= uint_val _ ?a =>
        specialize (IHd a ltac:(lia));
        assert (0 <= 10 ^ Z.of_nat (Decimal.nb_digits d)) by (apply Z.pow_nonneg; lia);
        nia
    end.
Qed.

(** A numeral without leading zero whose value is below ten to the
    [max_str_digits] has at most that many digits. *)
Lemma nb_digits_bound (d : Decimal.uint) :
  d <> Decimal.Nil -> (forall d', d <> Decimal.D0 d') ->
  uint_val d 0 < 10 ^ Z.of_nat max_str_digits ->
  (Decimal.nb_digits d <= max_str_digits)%nat.
Proof.
  intros Hnil Hz Hv.
  destruct (le_lt_dec (Decimal.nb_digits d) max_str_digits) as [L|L]; [exact L|].
  exfalso.
  assert (B : 10 ^ Z.of_nat max_str_digits <= uint_val d 0); [|lia].
  destruct d as [|d|d|d|d|d|d|d|d|d|d];
    [ contradiction | exfalso; apply (Hz d); reflexivity | .. ];
    cbn [Decimal.nb_digits uint_val] in *;
    match goal with
    | |- _ <= uint_val _ ?a =>
        pose proof (uint_val_lower d a ltac:(lia)) as Q;
        assert (P : 10 ^ Z.of_nat max_str_digits
                    <= 10 ^ Z.of_nat (Decimal.nb_digits d))
          by (apply Z.pow_le_mono_r; lia);
        lia
    end.
Qed.

Lemma to_uint_normal (p : positive) :
  Pos.to_uint p <> Decimal.Nil /\ forall d', Pos.to_uint p <> Decimal.D0 d'.
Proof.
  split; [apply DecimalPos.Unsigned.to_uint_nonnil|].
  intros d' E.
  pose proof (DecimalPos.Unsigned.to_of (Pos.to_uint p)) as T.
  rewrite DecimalPos.Unsigned.of_to in T. change (N.to_uint (N.pos p)) with (Pos.to_uint p) in T.
  assert (Z0 : Decimal.nzhead (Pos.to_uint p) <> Decimal.Nil).
  { intros N. apply DecimalFacts.unorm_0 in N. rewrite <- T in N.
    exact (DecimalPos.Unsigned.to_uint_nonzero p N). }
  rewrite (DecimalFacts.unorm_nzhead _ Z0) in T.
  rewrite E in T at 1. exact (DecimalFacts.nzhead_nonzero _ _ (eq_sym T)).
Qed.

Lemma int_unsigned_uint (d : Decimal.uint) :
  d <> Decimal.Nil ->
  int_unsigned (NilEmpty.string_of_uint d)
  = int_tail (NilEmpty.string_of_uint d) 0 0.
Proof. destruct d; [contradiction | reflexivity ..]. Qed.

Lemma int_ascii_uint (d : Decimal.uint) :
  d <> Decimal.Nil ->
  int_ascii (NilEmpty.string_of_uint d)
  = int_unsigned (NilEmpty.string_of_uint d).
Proof. destruct d; [contradiction | reflexivity ..]. Qed.

Lemma int_unsigned_to_uint (p : positive) :
  Z.pos p < 10 ^ Z.of_nat max_str_digits ->
  int_unsigned (NilEmpty.string_of_uint (Pos.to_uint p)) = Some (Z.pos p).
Proof.
  intros H. destruct (to_uint_normal p) as [Hn Hz].
  assert (V : uint_val (Pos.to_uint p) 0 = Z.pos p).
  { rewrite <- uint_val_of_uint. unfold Z.of_uint.
    rewrite DecimalPos.Unsigned.of_to. reflexivity. }
  rewrite (int_unsigned_uint _ Hn), int_tail_uint, V.
  replace (max_str_digits <? 0 + Decimal.nb_digits (Pos.to_uint p))%nat
    with false; [reflexivity|].
  symmetry. apply Nat.ltb_ge. rewrite Nat.add_0_l.
  apply nb_digits_bound; [exact Hn | exact Hz | rewrite V; exact H].
Qed.

Lemma string_of_to_uint (p : positive) :
  NilZero.string_of_uint (Pos.to_uint p)
  = NilEmpty.string_of_uint (Pos.to_uint p).
Proof.
  pose proof (DecimalPos.Unsigned.to_uint_nonnil p) as Hn.
  destruct (Pos.to_uint p); [contradiction | reflexivity ..].
Qed.

(** The text of a number is ASCII, so [int] reads it as it stands. *)
Lemma is_ascii_uint (d : Decimal.uint) :
  is_ascii (NilEmpty.string_of_uint d) = true.
Proof.
  induction d; cbn [NilEmpty.string_of_uint is_ascii];
    [reflexivity | rewrite IHd; reflexivity ..].
Qed.

Lemma is_ascii_str_of_int (n : Z) : is_ascii (str_of_int n) = true.
Proof.
  unfold str_of_int.
  destruct n as [|p|p]; cbn [Z.to_int NilZero.string_of_int];
    [reflexivity | | ]; rewrite string_of_to_uint;
    [ | cbn [is_ascii]; change (byte "-" <? 128) with true; cbn [andb] ];
    apply is_ascii_uint.
Qed.

Lemma int_str_of_int (n : Z) :
  Z.abs n < 10 ^ Z.of_nat max_str_digits -> int (str_of_int n) = Some n.
Proof.
  intros H. unfold int. rewrite is_ascii_str_of_int. unfold str_of_int.
  destruct n as [|p|p]; cbn [Z.to_int NilZero.string_of_int].
  - reflexivity.
  - rewrite string_of_to_uint, int_ascii_uint
      by apply DecimalPos.Unsigned.to_uint_nonnil.
    apply int_unsigned_to_uint. exact H.
  - rewrite string_of_to_uint.
    change (int_ascii (String "-" ?s)) with (option_map Z.opp (int_unsigned s)).
    rewrite int_unsigned_to_uint by exact H. reflexivity.
Qed.

(** ** The properties *)

Lemma rq_version_sent (rq : request) : rq_version rq = version_sent (rq_line rq).
Proof.
  unfold rq_version, version_sent, parse_request.
  destruct (rq_line rq) as [|c l]; [reflexivity|].
  set (words := split (String c l)).
  destruct (3 <=? List.length words)%nat eqn:N.
  - destruct (version_number (last words "")) as [[major minor]|]; [|reflexivity].
    assert (Q : (major <? 2) || ((major =? 2) && (minor <? 0))
                = negb ((2 <? major) || ((major =? 2) && (0 <=? minor)))).
    { destruct (Z.ltb_spec major 2), (Z.ltb_spec 2 major),
        (Z.eqb_spec major 2), (Z.ltb_spec minor 0), (Z.leb_spec 0 minor);
        try reflexivity; lia. }
    rewrite Q.
    destruct ((2 <? major) || ((major =? 2) && (0 <=? minor))); [reflexivity|].
    cbn [negb].
    destruct (negb ((2 <=? List.length words)%nat && (List.length words <=? 3)%nat));
      [reflexivity|].
    destruct ((List.length words =? 2)%nat && negb (nth 0 words "" =? "GET")%string);
      reflexivity.
  - destruct (negb ((2 <=? List.length words)%nat && (List.length words <=? 3)%nat));
      [reflexivity|].
    destruct ((List.length words =? 2)%nat && negb (nth 0 words "" =? "GET")%string);
      reflexivity.
Qed.

Lemma carries_cors_wire (a b : string) :
  carries_cors (a ++ cors_block ++ b) = true.
Proof.
  unfold carries_cors, cors_block.
  set (l1 := header_line "Access-Control-Allow-Origin" "*").
  set (l2 := header_line "Access-Control-Allow-Methods" "GET, POST, OPTIONS").
  set (l3 := header_line "Access-Control-Allow-Headers" "Content-Type").
  rewrite !append_assoc.
  rewrite (contains_append l1).
  rewrite (contains_later l2 _ _ (contains_later l2 _ _ (contains_prefix l2 _))).
  rewrite (contains_later l3 _ _
             (contains_later l3 _ _ (contains_later l3 _ _ (contains_prefix l3 _)))).
  reflexivity.
Qed.

(** C1, as the script has it: what a client receives for its request in a
    run of the script depends on [request_version] as [parse_request] has
    left it when the answer is sent, which the request line decides as
    [version_sent] tells.  When it is [HTTP/0.9], the answer is the body
    alone, without any header; when it is anything else, the answer is the
    status line and the fields of the reply, then the three lines
    [Access-Control-Allow-Origin: *],
    [Access-Control-Allow-Methods: GET, POST, OPTIONS] and
    [Access-Control-Allow-Headers: Content-Type], the blank line and the
    body, whatever the method and the path. *)
Theorem cors_on_every_response (W : world) (argv : list string) (dir : string)
  (rq : request) (root bytes : string) :
  In (rq, root, bytes) (responses (snd (script W argv dir))) ->
  rq_version rq = version_sent (rq_line rq)
  /\ if String.eqb (version_sent (rq_line rq)) "HTTP/0.9"
     then bytes = body (static_reply W dir rq)
     else bytes = head W (static_reply W dir rq) ++ cors_block ++ crlf
                  ++ body (static_reply W dir rq)
          /\ carries_cors bytes = true.
Proof.
  intros Hin. split; [apply rq_version_sent|].
  rewrite <- rq_version_sent.
  destruct (script_responses W argv dir) as [_ [E|E]]; rewrite E in Hin.
  - destruct Hin.
  - apply in_map_iff in Hin. destruct Hin as (rq' & Heq & _).
    injection Heq as -> _ <-.
    unfold answer. cbv zeta.
    destruct (String.eqb (rq_version rq) "HTTP/0.9"); [reflexivity|].
    split; [reflexivity|]. apply carries_cors_wire.
Qed.

Lemma cors_on_every_response_witness :
  rq_version get_page = version_sent "GET /test-page.html HTTP/1.1"
  /\ if String.eqb (version_sent "GET /test-page.html HTTP/1.1") "HTTP/0.9"
     then answer sample "/srv" get_page = body (static_reply sample "/srv" get_page)
     else answer sample "/srv" get_page
          = head sample (static_reply sample "/srv" get_page) ++ cors_block ++ crlf
            ++ body (static_reply sample "/srv" get_page)
          /\ carries_cors (answer sample "/srv" get_page) = true.
Proof.
  refine (cors_on_every_response sample ["local-test-server.py"; "8001"]
            "/srv" get_page "/srv" (answer sample "/srv" get_page) _).
  vm_compute. left. reflexivity.
Defined.

(** C1, as the claim has it, fails: in a run of the script the request
    line [GET /test-page.html], which has no version and is served as
    [HTTP/0.9], is answered with the body alone, and none of the three
    fields is in it. *)
Lemma cors_absent_on_http09 :
  In (get_page_09, "/srv", "hello")
     (responses (snd (script sample ["local-test-server.py"; "8001"] "/srv")))
  /\ carries_cors "hello" = false.
Proof. split; [vm_compute; right; left; reflexivity | reflexivity]. Qed.

(** The same of a version that [parse_request] refuses: the error page for
    [GET /test-page.html HTTP/2.0] is sent while [request_version] still
    is [HTTP/0.9]. *)
Example cors_absent_on_refused_version :
  rq_version get_page_20 = "HTTP/0.9"
  /\ In (get_page_20, "/srv", "Bad request")
       (responses (snd (script busy ["local-test-server.py"; "8001"] "/srv")))
  /\ carries_cors "Bad request" = false.
Proof.
  split; [reflexivity|].
  split; [vm_compute; right; left; reflexivity | reflexivity].
Qed.

(** C2: when [test-page.html] is not in the working directory,
    [start_test_server] prints the problem and the hint and returns; no
    socket was created, no port is bound and no request is answered. *)
Theorem missing_marker_no_socket (W : world) (port : Z) (dir : string) :
  fs_exists W dir "test-page.html" = false ->
  let out := start_test_server W port (boot dir) in
  out = (Ret tt, boot dir,
         [Print "❌ test-page.html not found in current directory";
          Print "💡 Make sure you're running this from the project root directory"])
  /\ sockets (snd out) = []
  /\ listening (snd (fst out)) = None
  /\ serves (snd out) = false
  /\ responses (snd out) = [].
Proof.
  intros H. cbv zeta. rewrite (start_missing W port (boot dir) H).
  repeat split.
Qed.

Lemma missing_marker_no_socket_witness :
  sockets (snd (start_test_server elsewhere 9100 (boot "/tmp"))) = [].
Proof.
  refine (proj1 (proj2 (missing_marker_no_socket elsewhere 9100 "/tmp" _))).
  reflexivity.
Defined.

(** C3: when the system refuses the port with [Address already in use],
    [start_test_server] makes one attempt, on the port asked for, closes
    the socket that did not bind, prints a line that names this port and a
    hint that names the next one, and returns without serving. *)
Theorem port_in_use_reported (W : world) (port errno : Z) (dir : string) :
  fs_exists W dir "test-page.html" = true ->
  0 <= port <= 65535 ->
  os_bind W port = Some (errno, "Address already in use") ->
  let out := start_test_server W port (boot dir) in
  out = (Ret tt, boot dir,
         [Socket port; Close;
          Print ("❌ Port " ++ str_of_int port ++ " is already in use");
          Print ("💡 Try a different port: python local-test-server.py "
                 ++ str_of_int (port + 1))])
  /\ sockets (snd out) = [port]
  /\ listening (snd (fst out)) = None
  /\ serves (snd out) = false.
Proof.
  intros Hex Hport Hbind. cbv zeta.
  rewrite (start_refused W port errno "Address already in use" (boot dir)
             Hex (in_range port Hport) Hbind).
  unfold start_error_lines, str_OSError.
  rewrite (contains_later _ _ _
             (contains_later _ _ _ (contains_later _ _ _ (contains_refl _)))).
  repeat split.
Qed.

Lemma port_in_use_reported_witness :
  start_test_server sample 8000 (boot "/srv")
  = (Ret tt, boot "/srv",
     [Socket 8000; Close;
      Print "❌ Port 8000 is already in use";
      Print "💡 Try a different port: python local-test-server.py 8001"]).
Proof.
  refine (proj1 (port_in_use_reported sample 8000 98 "/srv" _ _ _));
    [reflexivity | lia | reflexivity].
Defined.

(** C4: when the first argument is not an integer for [int], the script
    prints the error and exits with status 1, and nothing else happened;
    without an argument it starts the server on port 8000. *)
Theorem invalid_port_exits (W : world) (prog arg : string)
  (rest : list string) (dir : string) :
  int arg = None ->
  script W (prog :: arg :: rest) dir
  = (Exit 1, boot dir, [Print "❌ Invalid port number"])
  /\ (forall p, main W [prog] p = start_test_server W 8000 p).
Proof.
  intros H. split.
  - unfold script. rewrite main_invalid; [reflexivity | reflexivity | exact H].
  - intros p. apply main_default. reflexivity.
Qed.

Lemma invalid_port_exits_witness :
  script sample ["local-test-server.py"; "eighty"] "/srv"
  = (Exit 1, boot "/srv", [Print "❌ Invalid port number"]).
Proof.
  refine (proj1 (invalid_port_exits sample "local-test-server.py" "eighty" []
                   "/srv" _)).
  reflexivity.
Defined.

(** What is an integer for [int] is wider than the digits of ASCII: the
    digits of any script and the blanks of Unicode count, so that an
    argument in Arabic-Indic digits between ideographic spaces is a port,
    while superscript digits or a decimal point are not. *)
Example int_of_unicode_digits :
  int "٨١٠١" = Some 8101
  /\ int "　８１０１　" = Some 8101
  /\ int "8_101" = Some 8101
  /\ int "²" = None
  /\ int "8101.0" = None
  /\ sockets (snd (script sample ["local-test-server.py"; "٨١٠١"] "/srv")) = [8101].
Proof. vm_compute. repeat split. Qed.

(** C5: when the page is missing, [start_test_server] prints the two
    lines that say so; when the system refuses the port with any
    [OSError], it prints the line that names the port and the hint, or the
    line with the text of the error; in both cases it returns, and the
    interpreter ends with status 0. *)
Theorem startup_failures_exit_zero (W : world) (prog arg : string)
  (rest : list string) (dir : string) (port errno : Z) (strerror : string) :
  int arg = Some port ->
  fs_exists W dir "test-page.html" = false
  \/ (0 <= port <= 65535 /\ os_bind W port = Some (errno, strerror)) ->
  let t :=
    if fs_exists W dir "test-page.html"
    then Socket port :: Close ::
         (if contains "Address already in use" (str_OSError errno strerror)
          then [Print ("❌ Port " ++ str_of_int port ++ " is already in use");
                Print ("💡 Try a different port: python local-test-server.py "
                       ++ str_of_int (port + 1))]
          else [Print ("❌ Error starting server: "
                       ++ str_OSError errno strerror)])
    else [Print "❌ test-page.html not found in current directory";
          Print "💡 Make sure you're running this from the project root directory"]
  in
  start_test_server W port (boot dir) = (Ret tt, boot dir, t)
  /\ script W (prog :: arg :: rest) dir = (Exit 0, boot dir, t)
  /\ printed t <> []
  /\ serves t = false.
Proof.
  intros Hint Hfail. cbv zeta.
  assert (S : start_test_server W port (boot dir)
              = (Ret tt, boot dir,
                 if fs_exists W dir "test-page.html"
                 then Socket port :: Close :: start_error_lines port errno strerror
                 else [Print "❌ test-page.html not found in current directory";
                       Print "💡 Make sure you're running this from the project root directory"])).
  { destruct (fs_exists W dir "test-page.html") eqn:Hex.
    - destruct Hfail as [Hf|[Hport Hbind]]; [discriminate|].
      apply start_refused; [exact Hex | apply in_range, Hport | exact Hbind].
    - apply start_missing. exact Hex. }
  unfold start_error_lines in S.
  split; [exact S|]. split.
  - unfold script. rewrite (main_port W _ port) by (reflexivity || exact Hint).
    rewrite S. reflexivity.
  - destruct (fs_exists W dir "test-page.html").
    + destruct (contains "Address already in use" (str_OSError errno strerror));
        split; (discriminate || reflexivity).
    + split; (discriminate || reflexivity).
Qed.

Lemma startup_failures_exit_zero_witness :
  start_test_server sample 8000 (boot "/srv")
  = (Ret tt, boot "/srv",
     [Socket 8000; Close;
      Print "❌ Port 8000 is already in use";
      Print "💡 Try a different port: python local-test-server.py 8001"])
  /\ script sample ["local-test-server.py"; "8000"] "/srv"
     = (Exit 0, boot "/srv",
        [Socket 8000; Close;
         Print "❌ Port 8000 is already in use";
         Print "💡 Try a different port: python local-test-server.py 8001"]).
Proof.
  pose proof (startup_failures_exit_zero sample "local-test-server.py" "8000" []
                "/srv" 8000 98 "Address already in use" eq_refl
                (or_intror (conj (conj (Zle_bool_imp_le 0 8000 eq_refl)
                                       (Zle_bool_imp_le 8000 65535 eq_refl))
                                 eq_refl))) as H.
  exact (conj (proj1 H) (proj1 (proj2 H))).
Defined.

(** C6: in every run of the script started in [dir], each request is
    answered from [dir], with the bytes the static-file logic gives for
    [dir], and the process is still in [dir] at the end. *)
Theorem root_is_startup_directory (W : world) (argv : list string)
  (dir : string) (rq : request) (root bytes : string) :
  In (rq, root, bytes) (responses (snd (script W argv dir))) ->
  root = dir
  /\ bytes = answer W dir rq
  /\ cwd (snd (fst (script W argv dir))) = dir.
Proof.
  intros Hin.
  destruct (script_responses W argv dir) as [Hc [E|E]]; rewrite E in Hin.
  - destruct Hin.
  - apply in_map_iff in Hin. destruct Hin as (rq' & Heq & _).
    injection Heq as -> <- <-. repeat split. exact Hc.
Qed.

Lemma root_is_startup_directory_witness :
  "/srv" = "/srv"
  /\ "hello" = answer sample "/srv" get_page_09
  /\ cwd (snd (fst (script sample ["local-test-server.py"; "8001"] "/srv"))) = "/srv".
Proof.
  refine (root_is_startup_directory sample ["local-test-server.py"; "8001"]
            "/srv" get_page_09 "/srv" "hello" _).
  vm_compute. right. left. reflexivity.
Defined.

(** C7: [log_message] prints one line, the globe and a blank followed by
    [format % args]; and every line logged while a request is handled is
    the globe and a blank followed by a format of the library applied to
    its arguments, the line of [log_request], ['"%s" %s %s'] on the
    request line, the status and ['-'], being one of them. *)
Theorem log_line_is_prefixed_message (h : handler) (format : string)
  (args : list value) (message : string) (p : process) :
  percent format args = Some message ->
  DSPTestHandler.log_message h format args p
  = (Ret tt, p, [Print ("🌐 " ++ message)])
  /\ (forall (W : world) (rq : request),
        let lines := printed (snd (DSPTestHandler.__init__ W rq p)) in
        Forall (fun line =>
                  exists format' args' content,
                    percent format' args' = Some content
                    /\ line = "🌐 " ++ content) lines
        /\ exists content,
             percent (dq ++ "%s" ++ dq ++ " %s %s")
               [VStr (rq_requestline rq);
                VStr (str_of_int (status (static_reply W (cwd p) rq)));
                VStr "-"] = Some content
             /\ In ("🌐 " ++ content) lines).
Proof.
  intros H. split.
  - apply log_message_prints, H.
  - intros W rq. cbv zeta.
    assert (E : printed (snd (DSPTestHandler.__init__ W rq p))
                = printed (logged W (cwd p) rq)).
    { rewrite init_spec.
      destruct (rq_lost rq) as [[errno strerror]|].
      - destruct (writes W (cwd p) rq); reflexivity.
      - cbn [snd]. unfold printed. rewrite flat_map_app. cbn [flat_map].
        apply app_nil_r. }
    rewrite E. unfold logged. cbv zeta.
    set (r := static_reply W (cwd p) rq).
    assert (Q : forall line,
               line = log_line (rq_requestline rq) (status r)
               \/ line = error_line (status r) (reason r) ->
               exists format' args' content,
                 percent format' args' = Some content
                 /\ line = "🌐 " ++ content).
    { intros line [->| ->].
      - do 3 eexists. split; [apply percent_log_request | reflexivity].
      - do 3 eexists. split; [apply percent_log_error | reflexivity]. }
    split.
    + destruct (rq_refused rq || error r); cbn; repeat constructor; apply Q; auto.
    + eexists. split; [apply percent_log_request|].
      destruct (rq_refused rq || error r); cbn; auto.
Qed.

Lemma log_line_is_prefixed_message_witness :
  DSPTestHandler.log_message
    (mkHandler "/srv" "GET /nothing HTTP/1.1" (Some "GET") "/nothing" "HTTP/1.1"
       None "" None)
    "code %d, message %s" [VInt 404; VStr "File not found"] (boot "/srv")
  = (Ret tt, boot "/srv", [Print "🌐 code 404, message File not found"]).
Proof.
  refine (proj1 (log_line_is_prefixed_message _ "code %d, message %s"
                   [VInt 404; VStr "File not found"]
                   "code 404, message File not found" (boot "/srv") _)).
  reflexivity.
Defined.

(** C8: once the socket is bound, an exception out of [webbrowser.open],
    whichever it is, is caught: the note is printed, [serve_forever] is
    entered next, and every request that arrives is answered. *)
Theorem browser_failure_tolerated (W : world) (port : Z) (dir : string)
  (e : exn) :
  fs_exists W dir "test-page.html" = true ->
  0 <= port <= 65535 ->
  os_bind W port = None ->
  browser W (test_url port) = Some e ->
  let t := snd (start_test_server W port (boot dir)) in
  (exists before after,
      t = (before ++ Browser (test_url port) :: Print manual_note
                  :: ServeForever :: after)%list)
  /\ serves t = true
  /\ responses t = map (fun rq => (rq, dir, answer W dir rq)) (incoming W).
Proof.
  intros Hex Hport Hbind Hb. cbv zeta.
  destruct (start_bound W port dir Hex Hport Hbind)
    as (r & p & t_end & E & _ & _ & Hr & _).
  rewrite E. cbn [snd].
  split; [|split].
  - unfold serving, browser_events. rewrite Hb.
    exists (Socket port :: banner port),
      (loop_events W dir (arriving W) ++ t_end)%list.
    rewrite <- !app_comm_cons, <- app_assoc. reflexivity.
  - apply serves_serving.
  - rewrite responses_app, responses_serving, Hr. apply app_nil_r.
Qed.

Lemma browser_failure_tolerated_witness :
  serves (snd (start_test_server sample 8001 (boot "/srv"))) = true.
Proof.
  refine (proj1 (proj2 (browser_failure_tolerated sample 8001 "/srv"
                          (OtherError "webbrowser.Error") _ _ _ _)));
    [reflexivity | lia | reflexivity | reflexivity].
Defined.

(** C9: when the argument is an integer for [int] outside 0..65535 and
    the page is there, creating the server raises [OverflowError], which is
    not an [OSError]: no clause catches it, nothing is printed, and the
    interpreter ends with its traceback, the socket that did not bind
    closed. *)
Theorem out_of_range_port_traceback (W : world) (prog arg : string)
  (rest : list string) (dir : string) (port : Z) :
  int arg = Some port ->
  port < 0 \/ 65535 < port ->
  fs_exists W dir "test-page.html" = true ->
  script W (prog :: arg :: rest) dir
  = (Traceback OverflowError, boot dir, [Socket port; Close])
  /\ is_OSError OverflowError = false.
Proof.
  intros Hint Hport Hex. split; [|reflexivity].
  unfold script. rewrite (main_port W _ port) by (reflexivity || exact Hint).
  rewrite start_out_of_range; [reflexivity | exact Hex |].
  apply orb_true_iff. destruct Hport; [left | right]; apply Z.ltb_lt; assumption.
Qed.

Lemma out_of_range_port_traceback_witness :
  script sample ["local-test-server.py"; "70000"] "/srv"
  = (Traceback OverflowError, boot "/srv", [Socket 70000; Close]).
Proof.
  refine (proj1 (out_of_range_port_traceback sample "local-test-server.py"
                   "70000" [] "/srv" 70000 _ _ _));
    [reflexivity | right; lia | reflexivity].
Defined.

(** C10: when [webbrowser.open] raises, the note printed is the same
    text for every port; it holds the characters [{port}] and is not the
    text with the port put in. *)
Theorem manual_note_keeps_placeholder (W : world) (port : Z) (dir : string)
  (e : exn) :
  fs_exists W dir "test-page.html" = true ->
  0 <= port <= 65535 ->
  os_bind W port = None ->
  browser W (test_url port) = Some e ->
  In (Print manual_note) (snd (start_test_server W port (boot dir)))
  /\ contains "{port}" manual_note = true
  /\ manual_note <> interpolated_note port.
Proof.
  intros Hex Hport Hbind Hb.
  destruct (start_bound W port dir Hex Hport Hbind)
    as (r & p & t_end & E & _).
  rewrite E. cbn [snd]. unfold serving, browser_events. rewrite Hb.
  split; [|split].
  - apply in_or_app. left. right. apply in_or_app. right. right. left. reflexivity.
  - reflexivity.
  - apply manual_note_not_interpolated.
Qed.

Lemma manual_note_keeps_placeholder_witness :
  In (Print manual_note) (snd (start_test_server sample 8001 (boot "/srv"))).
Proof.
  refine (proj1 (manual_note_keeps_placeholder sample 8001 "/srv"
                   (OtherError "webbrowser.Error") _ _ _ _));
    [reflexivity | lia | reflexivity | reflexivity].
Defined.

(** The other port of the claim, [-1], run as an example. *)
Example minus_one_traceback :
  script sample ["local-test-server.py"; "-1"] "/srv"
  = (Traceback OverflowError, boot "/srv", [Socket (-1); Close]).
Proof. vm_compute. reflexivity. Qed.

(** The scenario of the specification: no argument, the page in place,
    port 8000 free, a browser that opens, one request, then Ctrl+C. *)
Example default_run :
  let W := {| fs_exists := fs_exists sample;
              os_bind := fun _ => None;
              ephemeral := ephemeral sample;
              browser := fun _ => None;
              arriving := [Sends ("GET /test-page.html HTTP/1.1" ++ crlf) None];
              select_wake := Some KeyboardInterrupt;
              static_reply := static_reply sample;
              version_string := version_string sample;
              date_time_string := date_time_string sample |} in
  let out := script W ["local-test-server.py"] "/srv" in
  fst (fst out) = Exit 0
  /\ sockets (snd out) = [8000]
  /\ responses (snd out) = [(get_page, "/srv", answer W "/srv" get_page)]
  /\ carries_cors (answer W "/srv" get_page) = true.
Proof. vm_compute. repeat split. Qed.

(** The busy afternoon, run: three clients are answered, the one that
    hung up and the one that was reset leave an error of the handler
    behind, Ctrl+C in the silent handler stops the server, and the request
    behind it is never read. *)
Example busy_run :
  let out := script busy ["local-test-server.py"; "8001"] "/srv" in
  fst (fst out) = Exit 0
  /\ map (fun r => rq_line (fst (fst r))) (responses (snd out))
     = ["GET /test-page.html HTTP/1.1"; "GET /test-page.html HTTP/2.0"]
  /\ flat_map (fun e => match e with HandlerError x => [x] | _ => [] end) (snd out)
     = [OSError 32 "Broken pipe"; OSError 104 "Connection reset by peer"]
  /\ closes (snd out) = 1%nat
  /\ last (printed (snd out)) "" = String lf "⏹️  Server stopped by user".
Proof. vm_compute. repeat split. Qed.

(** ** Further properties of the script *)



(** X2: when the system refuses the port with an error whose text does
    not hold [Address already in use], the routine closes the socket that
    did not bind, prints one line, the cross, [Error starting server: ]
    and the text of the error, with no hint at another port, and returns
    without serving. *)
Theorem bind_error_reported (W : world) (port errno : Z) (strerror dir : string) :
  fs_exists W dir "test-page.html" = true ->
  0 <= port <= 65535 ->
  os_bind W port = Some (errno, strerror) ->
  contains "Address already in use" (str_OSError errno strerror) = false ->
  start_test_server W port (boot dir)
  = (Ret tt, boot dir,
     [Socket port; Close;
      Print ("❌ Error starting server: [Errno " ++ str_of_int errno ++ "] "
             ++ strerror)]).
Proof.
  intros Hex Hport Hbind Hc.
  rewrite (start_refused W port errno strerror (boot dir)
             Hex (in_range port Hport) Hbind).
  unfold start_error_lines. rewrite Hc. reflexivity.
Qed.

Lemma bind_error_reported_witness :
  start_test_server (refusing 13 "Permission denied") 80 (boot "/srv")
  = (Ret tt, boot "/srv",
     [Socket 80; Close;
      Print "❌ Error starting server: [Errno 13] Permission denied"]).
Proof.
  refine (bind_error_reported _ 80 13 "Permission denied" "/srv" _ _ _ _);
    [reflexivity | lia | reflexivity | reflexivity].
Defined.

(** X3: however the routine goes, it creates at most one socket, on the
    port it was given, calls the browser at most once, on the test page
    of that port, stays in its directory, and leaves a listening socket
    behind only when it is still serving, on the port the system bound
    (its own choice when the port given is 0): when it returns or raises,
    every socket it created was closed, once. *)
Theorem listening_socket_released (W : world) (port : Z) (dir : string) :
  let out := start_test_server W port (boot dir) in
  cwd (snd (fst out)) = dir
  /\ (sockets (snd out) = [] \/ sockets (snd out) = [port])
  /\ (browsed (snd out) = [] \/ browsed (snd out) = [test_url port])
  /\ listening (snd (fst out))
     = match fst (fst out) with
       | Blocked => Some (bound_port W port)
       | _ => None
       end
  /\ closes (snd out)
     = match fst (fst out) with
       | Blocked => 0%nat
       | _ => List.length (sockets (snd out))
       end.
Proof.
  cbv zeta. pose proof (start_closes W port dir) as Hc. cbv zeta in Hc.
  split; [|split; [|split; [|split; [|exact Hc]]]]; clear Hc;
    destruct (start_cases W port dir)
      as [(_ & t & E & Hs & Hb & _)
         |[(_ & _ & E)
          |[(_ & _ & _ & t & E & Hs & Hb & _)
           |(_ & _ & _ & r & p & t_end & E & Hs & Hb & _ & Hp)]]];
    rewrite E; cbn [fst snd];
    rewrite ?sockets_app, ?browsed_app, ?sockets_serving, ?browsed_serving,
      ?Hs, ?Hb;
    try (destruct r; subst p); cbn; auto.
Qed.

(** X4: a request is answered only by a server that found the page, was
    given a port in range and bound it: without any of the three, no
    response is ever produced. *)
Theorem responses_need_marker_and_socket (W : world) (port : Z) (dir : string)
  (rq : request) (root bytes : string) :
  In (rq, root, bytes) (responses (snd (start_test_server W port (boot dir)))) ->
  fs_exists W dir "test-page.html" = true
  /\ 0 <= port <= 65535
  /\ os_bind W port = None
  /\ sockets (snd (start_test_server W port (boot dir))) = [port].
Proof.
  destruct (start_cases W port dir)
    as [(_ & t & E & _ & _ & Hr)
       |[(_ & _ & E)
        |[(_ & _ & _ & t & E & _ & _ & Hr)
         |(Hex & Hport & Hbind & r & p & t_end & E & Hs & _ & _ & _)]]];
    rewrite E; cbn [fst snd]; intros Hin.
  - rewrite Hr in Hin. destruct Hin.
  - destruct Hin.
  - rewrite Hr in Hin. destruct Hin.
  - repeat split; try assumption; try apply Hport.
    rewrite sockets_app, sockets_serving, Hs. reflexivity.
Qed.

Lemma responses_need_marker_and_socket_witness :
  fs_exists sample "/srv" "test-page.html" = true
  /\ 0 <= 8001 <= 65535
  /\ os_bind sample 8001 = None
  /\ sockets (snd (start_test_server sample 8001 (boot "/srv"))) = [8001].
Proof.
  refine (responses_need_marker_and_socket sample 8001 "/srv" get_page_09
            "/srv" "hello" _).
  vm_compute. right. left. reflexivity.
Defined.

(** X5: a server that bound its port announces the address of that port
    and the test page under it, and hands the browser this same test page
    address, once, whether the browser then opens or not. *)
Theorem announced_page_is_opened (W : world) (port : Z) (dir : string) :
  fs_exists W dir "test-page.html" = true ->
  0 <= port <= 65535 ->
  os_bind W port = None ->
  let t := snd (start_test_server W port (boot dir)) in
  In (Print ("📡 Server running at: http://localhost:" ++ str_of_int port)) t
  /\ In (Print ("🧪 Test page: http://localhost:" ++ str_of_int port
                ++ "/test-page.html")) t
  /\ browsed t = ["http://localhost:" ++ str_of_int port ++ "/test-page.html"].
Proof.
  intros Hex Hport Hbind. cbv zeta.
  destruct (start_bound W port dir Hex Hport Hbind)
    as (r & p & t_end & E & _ & Hb & _ & _).
  rewrite E. cbn [snd]. split; [|split].
  - apply in_or_app. left. unfold serving, banner. cbn. auto.
  - apply in_or_app. left. unfold serving, banner, test_url. cbn. auto.
  - rewrite browsed_app, browsed_serving, Hb. reflexivity.
Qed.

Lemma announced_page_is_opened_witness :
  browsed (snd (start_test_server sample 8001 (boot "/srv")))
  = ["http://localhost:8001/test-page.html"].
Proof.
  refine (proj2 (proj2 (announced_page_is_opened sample 8001 "/srv" _ _ _)));
    [reflexivity | lia | reflexivity].
Defined.

(** X6: when [webbrowser.open] returns, whatever it returns, the line
    [Opening test page in browser...] follows the call and the serve loop
    follows the line; the note of the [except] suite is not printed in
    its place. *)
Theorem browser_success_announced (W : world) (port : Z) (dir : string) :
  fs_exists W dir "test-page.html" = true ->
  0 <= port <= 65535 ->
  os_bind W port = None ->
  browser W (test_url port) = None ->
  exists after,
    snd (start_test_server W port (boot dir))
    = (Socket port :: banner port
       ++ Browser (test_url port)
          :: Print "🌐 Opening test page in browser..."
          :: ServeForever :: after)%list.
Proof.
  intros Hex Hport Hbind Hb.
  destruct (start_bound W port dir Hex Hport Hbind)
    as (r & p & t_end & E & _).
  rewrite E. cbn [snd]. unfold serving, browser_events. rewrite Hb.
  exists (loop_events W dir (arriving W) ++ t_end)%list.
  rewrite <- !app_comm_cons, <- app_assoc. reflexivity.
Qed.

Lemma browser_success_announced_witness :
  exists after,
    snd (start_test_server with_browser 8001 (boot "/srv"))
    = (Socket 8001 :: banner 8001
       ++ Browser (test_url 8001)
          :: Print "🌐 Opening test page in browser..."
          :: ServeForever :: after)%list.
Proof.
  refine (browser_success_announced _ 8001 "/srv" _ _ _ _);
    [reflexivity | lia | reflexivity | reflexivity].
Defined.

(** X7: the [try] of the routine spans the serve loop, so an [OSError]
    raised while the server is serving is caught by the clause written for
    the bind: the server is closed, the same lines as for a failed start
    are printed ([Port ... is already in use] with its hint when the text
    of the error holds [Address already in use], [Error starting server]
    otherwise), and the routine returns normally. *)
Theorem serve_error_reported_as_start_error (W : world) (port errno : Z)
  (strerror dir : string) :
  fs_exists W dir "test-page.html" = true ->
  0 <= port <= 65535 ->
  os_bind W port = None ->
  interrupt W = Some (OSError errno strerror) ->
  start_test_server W port (boot dir)
  = (Ret tt, boot dir,
     (serving W port dir
      ++ Close ::
         if contains "Address already in use" (str_OSError errno strerror)
         then [Print ("❌ Port " ++ str_of_int port ++ " is already in use");
               Print ("💡 Try a different port: python local-test-server.py "
                      ++ str_of_int (port + 1))]
         else [Print ("❌ Error starting server: "
                      ++ str_OSError errno strerror)])%list).
Proof.
  intros Hex Hport Hbind Hi.
  rewrite (start_bound_ending W port dir Hex Hport Hbind), Hi. reflexivity.
Qed.

Lemma serve_error_reported_as_start_error_witness :
  let W := with_traffic sample (arriving sample)
             (Some (OSError 9 "Bad file descriptor")) in
  start_test_server W 8001 (boot "/srv")
  = (Ret tt, boot "/srv",
     (serving W 8001 "/srv"
      ++ [Close;
          Print "❌ Error starting server: [Errno 9] Bad file descriptor"])%list).
Proof.
  cbv zeta.
  refine (serve_error_reported_as_start_error _ 8001 9 "Bad file descriptor"
            "/srv" _ _ _ _);
    [reflexivity | lia | reflexivity | reflexivity].
Defined.

(** X8: an exception out of the serve loop that is neither an [OSError]
    nor [KeyboardInterrupt] is caught by no clause: the server is closed,
    nothing more is printed and the exception leaves the routine. *)
Theorem other_serve_error_propagates (W : world) (port : Z) (dir : string)
  (e : exn) :
  fs_exists W dir "test-page.html" = true ->
  0 <= port <= 65535 ->
  os_bind W port = None ->
  interrupt W = Some e ->
  is_OSError e = false ->
  e <> KeyboardInterrupt ->
  start_test_server W port (boot dir)
  = (Raise e, boot dir, (serving W port dir ++ [Close])%list).
Proof.
  intros Hex Hport Hbind Hi Ho Hk.
  rewrite (start_bound_ending W port dir Hex Hport Hbind), Hi.
  destruct e; try reflexivity; [discriminate | contradiction].
Qed.

Lemma other_serve_error_propagates_witness :
  let W := with_traffic sample (arriving sample)
             (Some (OtherError "RuntimeError")) in
  start_test_server W 8001 (boot "/srv")
  = (Raise (OtherError "RuntimeError"), boot "/srv",
     (serving W 8001 "/srv" ++ [Close])%list).
Proof.
  cbv zeta.
  refine (other_serve_error_propagates _ 8001 "/srv" (OtherError "RuntimeError")
            _ _ _ _ _ _);
    [reflexivity | lia | reflexivity | reflexivity | reflexivity | discriminate].
Defined.



(** X10: [DSPTestHandler.end_headers] raises only what the write to the
    client raises.  For [HTTP/0.9] it writes nothing and leaves the
    handler as it was; otherwise, when the client is still there, it
    writes what was buffered, the three fields and the blank line and
    leaves the buffer empty, and when the client has gone, the [OSError]
    of the write leaves the method.  It prints nothing, and it does not
    fail on a handler that has no buffer yet, where the inherited method
    called alone raises [AttributeError]: its own [send_header] calls
    create the buffer. *)
Theorem end_headers_raises_only_write_error (h : handler) (p : process) :
  DSPTestHandler.end_headers h p
  = (if is_http09 h then (Ret h, p, [])
     else match lost h with
          | Some (errno, strerror) => (Raise (OSError errno strerror), p, [])
          | None =>
              (Ret (set_buffer
                      (written h
                         (String.concat "" (match _headers_buffer h with
                                            | Some b => b
                                            | None => []
                                            end)
                          ++ cors_block ++ crlf))
                      (Some [])),
               p, [])
          end)
  /\ base_end_headers (set_buffer h None) p
     = (if is_http09 h then (Ret (set_buffer h None), p, [])
        else (Raise AttributeError, p, [])).
Proof.
  split.
  - destruct (is_http09 h) eqn:E.
    + apply end_headers_http09, E.
    + assert (Q : forall h0 b,
                 is_http09 h0 = false -> _headers_buffer h0 = Some b ->
                 DSPTestHandler.end_headers h0 p
                 = match lost h0 with
                   | Some (errno, strerror) =>
                       (Raise (OSError errno strerror), p, [])
                   | None =>
                       (Ret (set_buffer
                               (written h0 (String.concat "" b ++ cors_block ++ crlf))
                               (Some [])), p, [])
                   end).
      { intros h0 b E0 Hb. destruct (lost h0) as [[errno strerror]|] eqn:Hl.
        - apply (end_headers_gone h0 b p errno strerror E0 Hb Hl).
        - apply (end_headers_wire h0 b p E0 Hb Hl). }
      destruct (_headers_buffer h) as [b|] eqn:Hb.
      * apply Q; assumption.
      * rewrite (end_headers_fresh h p E Hb).
        rewrite (Q (set_buffer h (Some [])) [] E eq_refl).
        cbn [lost set_buffer]. destruct (lost h) as [[errno strerror]|]; reflexivity.
  - unfold base_end_headers.
    change (is_http09 (set_buffer h None)) with (is_http09 h).
    destruct (is_http09 h); reflexivity.
Qed.

(** A reply under way to a client that hung up: the three fields are
    buffered, and the write that [end_headers] makes raises. *)
Example end_headers_broken_pipe :
  DSPTestHandler.end_headers
    (mkHandler "/srv" "GET /test-page.html HTTP/1.1" (Some "GET")
       "/test-page.html" "HTTP/1.1" (Some ["HTTP/1.0 200 OK" ++ crlf]) ""
       (Some (32, "Broken pipe")))
    (boot "/srv")
  = (Raise (OSError 32 "Broken pipe"), boot "/srv", []).
Proof. reflexivity. Qed.

(** X11: [int] undoes [str] on every integer of at most 4300 digits: the
    text of such a number, as an f-string puts it in a message, given back
    as the port argument is read as the same number.  The bound is sharp:
    the text of ten to the 4300, which has one digit more, is refused. *)
Theorem port_text_round_trip (n : Z) :
  Z.abs n < 10 ^ 4300 ->
  int (str_of_int n) = Some n
  /\ int (str_of_int (10 ^ 4300)) = None.
Proof.
  intros H. split.
  - apply int_str_of_int. exact H.
  - vm_compute. reflexivity.
Qed.

Lemma port_text_round_trip_witness :
  int (str_of_int (-8001)) = Some (-8001).
Proof.
  refine (proj1 (port_text_round_trip (-8001) _)).
  vm_compute. reflexivity.
Defined.

(** X12: the hint printed when the port is in use can be followed as it
    stands: the text after [local-test-server.py] in the hint, given as
    the first argument, makes the script run the routine on the next
    port, whatever follows it on the command line. *)
Theorem retry_hint_starts_next_port (W : world) (port errno : Z) (dir : string) :
  fs_exists W dir "test-page.html" = true ->
  0 <= port <= 65535 ->
  os_bind W port = Some (errno, "Address already in use") ->
  exists arg,
    In (Print ("💡 Try a different port: python local-test-server.py " ++ arg))
       (snd (start_test_server W port (boot dir)))
    /\ int arg = Some (port + 1)
    /\ forall (W' : world) (prog : string) (rest : list string) (p : process),
         main W' (prog :: arg :: rest) p = start_test_server W' (port + 1) p.
Proof.
  intros Hex Hport Hbind.
  assert (R : int (str_of_int (port + 1)) = Some (port + 1)).
  { apply int_str_of_int.
    apply Z.lt_le_trans with (10 ^ 5); [lia|].
    apply Z.pow_le_mono_r; [lia|]. vm_compute. discriminate. }
  exists (str_of_int (port + 1)). split; [|split].
  - rewrite (start_refused W port errno "Address already in use" (boot dir)
               Hex (in_range port Hport) Hbind).
    unfold start_error_lines, str_OSError.
    rewrite (contains_later _ _ _
               (contains_later _ _ _ (contains_later _ _ _ (contains_refl _)))).
    cbn [snd]. right. right. right. left. reflexivity.
  - exact R.
  - intros W' prog rest p. apply main_port; [reflexivity | exact R].
Qed.

Lemma retry_hint_starts_next_port_witness :
  exists arg,
    In (Print ("💡 Try a different port: python local-test-server.py " ++ arg))
       (snd (start_test_server sample 8000 (boot "/srv")))
    /\ int arg = Some (8000 + 1)
    /\ forall (W' : world) (prog : string) (rest : list string) (p : process),
         main W' (prog :: arg :: rest) p = start_test_server W' (8000 + 1) p.
Proof.
  refine (retry_hint_starts_next_port sample 8000 98 "/srv" _ _ _);
    [reflexivity | lia | reflexivity].
Defined.

(** X13: the hint is not checked against the range of ports: when the
    last port, 65535, is in use, the hint names 65536, and the script run
    with 65536 ends in the traceback of [OverflowError]. *)
Theorem retry_hint_past_last_port (W : world) (errno : Z) (dir prog : string)
  (rest : list string) :
  fs_exists W dir "test-page.html" = true ->
  os_bind W 65535 = Some (errno, "Address already in use") ->
  In (Print "💡 Try a different port: python local-test-server.py 65536")
     (snd (start_test_server W 65535 (boot dir)))
  /\ script W (prog :: "65536" :: rest) dir
     = (Traceback OverflowError, boot dir, [Socket 65536; Close]).
Proof.
  intros Hex Hbind. split.
  - rewrite (start_refused W 65535 errno "Address already in use" (boot dir)
               Hex eq_refl Hbind).
    unfold start_error_lines, str_OSError.
    rewrite (contains_later _ _ _
               (contains_later _ _ _ (contains_later _ _ _ (contains_refl _)))).
    cbn [snd]. right. right. right. left. reflexivity.
  - unfold script.
    rewrite (main_port W _ 65536) by reflexivity.
    rewrite start_out_of_range; [reflexivity | exact Hex | reflexivity].
Qed.

Lemma retry_hint_past_last_port_witness :
  script (refusing 98 "Address already in use")
    ["local-test-server.py"; "65536"] "/srv"
  = (Traceback OverflowError, boot "/srv", [Socket 65536; Close]).
Proof.
  refine (proj2 (retry_hint_past_last_port _ 98 "/srv" "local-test-server.py" []
                   _ _));
    reflexivity.
Defined.
